(** * btc_parser.py: address monitoring and block-range scanning

    A shallow embedding of [src/btc_parser.py].  The two Python classes
    [BtcAddressMonitoring] and [BtcBlockMonitoring] become two modules, each
    with a record for the instance attributes and one function per method.
    The HTTP client and the JSON decoder are external: a call of
    [requests.get] is answered by a [network], a function from the endpoint
    requested to the reply received. *)

From Stdlib Require Import ZArith List String Ascii Bool Lia.
Import ListNotations.
Local Open Scope string_scope.
Local Open Scope Z_scope.
Local Open Scope list_scope.
Local Set Warnings "-register-all".

(** ** Values decoded from a JSON body

    [response.json()] yields [None], [bool], [int], [str], [list] and [dict]
    values.  Amounts of the API are integers (satoshi), so JSON numbers with
    a fraction are left out.  A [dict] is kept as its items in insertion
    order; [dict_get] returns the binding found first. *)

Inductive pyval : Type :=
| PNone
| PBool (b : bool)
| PInt (n : Z)
| PStr (s : string)
| PList (l : list pyval)
| PDict (items : list (string * pyval)).

(** ** Exceptions *)

Inductive exn : Type :=
| ConnectionError   (* requests.get: connection failure or timeout *)
| HTTPError         (* raise_for_status: status 4xx or 5xx *)
| JSONDecodeError   (* response.json(): the body is not valid JSON *)
| KeyError
| IndexError
| TypeError.

(** The classes named in the [except] clauses of the source. *)
Inductive exn_class : Type :=
| RequestException
| ValueError
| KeyError_class
| IndexError_class.

Definition isinstance (e : exn) (c : exn_class) : bool :=
  match c, e with
  | RequestException, (ConnectionError | HTTPError) => true
  | ValueError, JSONDecodeError => true
  | KeyError_class, KeyError => true
  | IndexError_class, IndexError => true
  | _, _ => false
  end.

Definition caught_by (e : exn) (cs : list exn_class) : bool :=
  existsb (isinstance e) cs.

Inductive result (A : Type) : Type :=
| Ok (a : A)
| Raise (e : exn).
Arguments Ok {A} a.
Arguments Raise {A} e.

Definition bind {A B : Type} (m : result A) (k : A -> result B) : result B :=
  match m with
  | Ok a => k a
  | Raise e => Raise e
  end.

Declare Scope py_scope.
Delimit Scope py_scope with py.
Notation "x <- m ;; k" := (bind m (fun x => k))
  (at level 61, m at next level, right associativity) : py_scope.
Local Open Scope py_scope.

(** ** Python operations on decoded values *)

Fixpoint dict_get (k : string) (items : list (string * pyval)) : option pyval :=
  match items with
  | [] => None
  | (k', v) :: rest => if String.eqb k k' then Some v else dict_get k rest
  end.

(** [l[i]] on a Python list: a negative index counts from the end. *)
Definition list_index {A : Type} (l : list A) (i : Z) : option A :=
  let n := Z.of_nat (List.length l) in
  let j := if i <? 0 then i + n else i in
  if (0 <=? j) && (j <? n) then nth_error l (Z.to_nat j) else None.

(** [v[k]] for a [str] key [k]. *)
Definition getitem_str (v : pyval) (k : string) : result pyval :=
  match v with
  | PDict items =>
      match dict_get k items with
      | Some x => Ok x
      | None => Raise KeyError
      end
  | _ => Raise TypeError   (* list and str indices must be integers *)
  end.

Definition chars (s : string) : list pyval :=
  map (fun c => PStr (String c EmptyString)) (list_ascii_of_string s).

(** [v[i]] for an [int] index [i].  The keys of a decoded dict are strings,
    so an integer is never one of them. *)
Definition getitem_int (v : pyval) (i : Z) : result pyval :=
  match v with
  | PList l =>
      match list_index l i with
      | Some x => Ok x
      | None => Raise IndexError
      end
  | PStr s =>
      match list_index (chars s) i with
      | Some x => Ok x
      | None => Raise IndexError
      end
  | PDict _ => Raise KeyError
  | _ => Raise TypeError
  end.

(** [v == s] for a [str] [s]. *)
Definition eq_str (v : pyval) (s : string) : bool :=
  match v with
  | PStr s' => String.eqb s' s
  | _ => false
  end.

Fixpoint is_substring (k s : string) : bool :=
  String.prefix k s ||
  match s with
  | EmptyString => false
  | String _ s' => is_substring k s'
  end.

(** [k in v] for a [str] [k]: key of a dict, element of a list, substring
    of a str. *)
Definition contains (k : string) (v : pyval) : result bool :=
  match v with
  | PDict items =>
      Ok (match dict_get k items with Some _ => true | None => false end)
  | PList l => Ok (existsb (fun x => eq_str x k) l)
  | PStr s => Ok (is_substring k s)
  | _ => Raise TypeError
  end.

(** The elements a [for] loop over [v] visits. *)
Definition iter (v : pyval) : result (list pyval) :=
  match v with
  | PList l => Ok l
  | PDict items => Ok (map (fun kv => PStr (fst kv)) items)
  | PStr s => Ok (chars s)
  | _ => Raise TypeError
  end.

Definition len (v : pyval) : result Z :=
  match v with
  | PList l => Ok (Z.of_nat (List.length l))
  | PDict items => Ok (Z.of_nat (List.length items))
  | PStr s => Ok (Z.of_nat (String.length s))
  | _ => Raise TypeError
  end.

(** Truth value of [v] in an [if] or under [and]. *)
Definition truthy (v : pyval) : bool :=
  match v with
  | PNone => false
  | PBool b => b
  | PInt n => negb (n =? 0)
  | PStr s => negb (String.eqb s "")
  | PList l => match l with [] => false | _ => true end
  | PDict items => match items with [] => false | _ => true end
  end.

(** [range(a, b)] *)
Definition range (a b : Z) : list Z :=
  map (fun i => a + Z.of_nat i) (seq 0 (Z.to_nat (b - a))).

(** ** The HTTP boundary *)

Inductive endpoint : Type :=
| UnconfirmedTransactions            (* /unconfirmed-transactions?format=json *)
| RawAddr (addr : string) (limit : Z) (* /rawaddr/{addr}?limit={limit} *)
| RawBlock (block_num : Z).           (* /rawblock/{block_num} *)

(** A reply: the status code and the decoded body, [None] when the body is
    not valid JSON. *)
Record response : Type := Response {
  status_code : Z;
  body : option pyval
}.

(** What the network answers to a GET; [None] is a transport failure. *)
Definition network : Type := endpoint -> option response.

Definition requests_get (net : network) (url : endpoint) : result response :=
  match net url with
  | Some r => Ok r
  | None => Raise ConnectionError
  end.

Definition raise_for_status (r : response) : result unit :=
  if (400 <=? status_code r) && (status_code r <? 600)
  then Raise HTTPError else Ok tt.

(** [response.ok]: true unless [raise_for_status] raises. *)
Definition response_ok (r : response) : bool :=
  match raise_for_status r with
  | Ok _ => true
  | Raise _ => false
  end.

Definition response_json (r : response) : result pyval :=
  match body r with
  | Some v => Ok v
  | None => Raise JSONDecodeError
  end.

(** ** Diagnostics written by [print] *)

Inductive diag : Type :=
| RetrieveFailed (e : exn)  (* "An error occurred while trying to retrieve ..." *)
| ParseFailed (e : exn)     (* "An error occurred while parsing the response as a JSON dictionary" *)
| SchemaFailed (e : exn).   (* "An error occurred while parsing the API response" *)

(** The outcome of a boolean operation: what it returns or raises, and what
    it printed. *)
Definition outcome : Type := (result bool * list diag)%type.

(** [try: body / except cs as err: print(msg err); return False], followed
    by [k] when the body raised nothing. *)
Definition try_except {A : Type} (body : result A) (cs : list exn_class)
    (msg : exn -> diag) (k : A -> outcome) : outcome :=
  match body with
  | Ok a => k a
  | Raise e => if caught_by e cs then (Ok false, [msg e]) else (Raise e, [])
  end.

Module BtcAddressMonitoring.

(** A row of [transaction_list]: [(from_address, to_address, amount)]. *)
Definition transfer : Type := (pyval * pyval * pyval)%type.

Record t : Type := Make {
  watch_address : string;
  transaction_list : list transfer;
  matrix : list (list pyval)
}.

(** [__init__] *)
Definition init (watch_address : string) : t := Make watch_address [] [].

(** [transaction['inputs'][0]['prev_out']['addr']] *)
Definition first_input_addr (transaction : pyval) : result pyval :=
  inputs <- getitem_str transaction "inputs" ;;
  input <- getitem_int inputs 0 ;;
  prev_out <- getitem_str input "prev_out" ;;
  getitem_str prev_out "addr".

(** The loop of [is_tx_transaction_from_btc_address]: [Ok true] is the
    [return True] inside it, [Ok false] is leaving it at its end. *)
Fixpoint tx_loop (w : string) (txs : list pyval) : result bool :=
  match txs with
  | [] => Ok false
  | transaction :: rest =>
      addr <- first_input_addr transaction ;;
      if eq_str addr w then Ok true else tx_loop w rest
  end.

(** The body of the first [try] of both boolean operations. *)
Definition fetch_unconfirmed (net : network) : result response :=
  response <- requests_get net UnconfirmedTransactions ;;
  _ <- raise_for_status response ;;
  Ok response.

(** The body of the third [try] of [is_tx_transaction_from_btc_address]. *)
Definition tx_search (w : string) (unconfirmed_transactions : pyval)
  : result bool :=
  txs <- getitem_str unconfirmed_transactions "txs" ;;
  txs <- iter txs ;;
  tx_loop w txs.

Definition is_tx_transaction_from_btc_address (self : t) (net : network)
  : outcome :=
  try_except (fetch_unconfirmed net)
    [RequestException; ValueError] RetrieveFailed
    (fun response =>
  try_except (response_json response) [ValueError] ParseFailed
    (fun unconfirmed_transactions =>
  try_except (tx_search (watch_address self) unconfirmed_transactions)
    [KeyError_class; IndexError_class] SchemaFailed
    (fun b => (Ok b, [])))).

(** The inner loop of [is_rx_transaction_to_btc_address] over the outputs
    of one transaction. *)
Fixpoint out_loop (w : string) (outs : list pyval) : result bool :=
  match outs with
  | [] => Ok false
  | output :: rest =>
      has_addr <- contains "addr" output ;;
      hit <- (if has_addr
              then (addr <- getitem_str output "addr" ;; Ok (eq_str addr w))
              else Ok false) ;;
      if hit then Ok true else out_loop w rest
  end.

Fixpoint rx_loop (w : string) (txs : list pyval) : result bool :=
  match txs with
  | [] => Ok false
  | transaction :: rest =>
      out <- getitem_str transaction "out" ;;
      outs <- iter out ;;
      hit <- out_loop w outs ;;
      if hit then Ok true else rx_loop w rest
  end.

(** The body of the third [try] of [is_rx_transaction_to_btc_address]. *)
Definition rx_search (w : string) (unconfirmed_transactions : pyval)
  : result bool :=
  txs <- getitem_str unconfirmed_transactions "txs" ;;
  txs <- iter txs ;;
  rx_loop w txs.

Definition is_rx_transaction_to_btc_address (self : t) (net : network)
  : outcome :=
  try_except (fetch_unconfirmed net)
    [RequestException; ValueError] RetrieveFailed
    (fun response =>
  try_except (response_json response) [ValueError] ParseFailed
    (fun unconfirmed_transactions =>
  try_except (rx_search (watch_address self) unconfirmed_transactions)
    [KeyError_class; IndexError_class] SchemaFailed
    (fun b => (Ok b, [])))).

(** The body of the loop of [get_transactions_from_btc_address] for one
    [tx]: the list after it, or the exception it raises. *)
Definition history_tx (tx : pyval) (acc : list transfer)
  : result (list transfer) :=
  has_inputs <- contains "inputs" tx ;;
  has_out <- (if has_inputs then contains "out" tx else Ok false) ;;
  if has_inputs && has_out then
    inputs <- getitem_str tx "inputs" ;;
    from_address <-
      (if truthy inputs
       then (inputs <- getitem_str tx "inputs" ;;
             input <- getitem_int inputs 0 ;;
             prev_out <- getitem_str input "prev_out" ;;
             getitem_str prev_out "addr")
       else Ok PNone) ;;
    out <- getitem_str tx "out" ;;
    to_address <-
      (if truthy out
       then (out <- getitem_str tx "out" ;;
             output <- getitem_int out 0 ;;
             getitem_str output "addr")
       else Ok PNone) ;;
    out <- getitem_str tx "out" ;;
    has_value <-
      (if truthy out
       then (out <- getitem_str tx "out" ;;
             output <- getitem_int out 0 ;;
             contains "value" output)
       else Ok false) ;;
    amount <-
      (if has_value
       then (out <- getitem_str tx "out" ;;
             output <- getitem_int out 0 ;;
             getitem_str output "value")
       else Ok PNone) ;;
    if truthy from_address && truthy to_address && truthy amount
    then Ok (acc ++ [(from_address, to_address, amount)])
    else Ok acc
  else Ok acc.

(** The loop over [data["txs"]].  The appends made before an exception
    stay in [self.transaction_list]. *)
Fixpoint history_loop (txs : list pyval) (acc : list transfer)
  : result unit * list transfer :=
  match txs with
  | [] => (Ok tt, acc)
  | tx :: rest =>
      match history_tx tx acc with
      | Ok acc' => history_loop rest acc'
      | Raise e => (Raise e, acc)
      end
  end.

Definition with_transaction_list (self : t) (l : list transfer) : t :=
  Make (watch_address self) l (matrix self).

(** Returns what the call returns or raises, and the object after it. *)
Definition get_transactions_from_btc_address (self : t) (net : network)
  : result (list transfer) * t :=
  let tx_page := 500 in
  match requests_get net (RawAddr (watch_address self) tx_page) with
  | Raise e => (Raise e, self)
  | Ok response =>
      if response_ok response then
        match response_json response with
        | Raise e => (Raise e, self)
        | Ok data =>
            match contains "txs" data with
            | Raise e => (Raise e, self)
            | Ok false => (Ok (transaction_list self), self)
            | Ok true =>
                match (txs <- getitem_str data "txs" ;; iter txs) with
                | Raise e => (Raise e, self)
                | Ok txs =>
                    match history_loop txs (transaction_list self) with
                    | (Ok _, l) => (Ok l, with_transaction_list self l)
                    | (Raise e, l) => (Raise e, with_transaction_list self l)
                    end
                end
            end
        end
      else (Ok [], with_transaction_list self [])
  end.

End BtcAddressMonitoring.

Module BtcBlockMonitoring.

Record t : Type := Make {
  start_block : Z;
  end_block : Z;
  matrix : list (list pyval)
}.

(** [__init__] *)
Definition init (start_block end_block : Z) : t :=
  Make start_block end_block [].

(** The three local lists of [get_mixed_btc_transactions_from_btc_blocks]. *)
Record lists : Type := Lists {
  sender_addresses : list pyval;
  recipient_addresses : list pyval;
  amounts : list pyval
}.

(** The loop over [tx["inputs"]]. *)
Fixpoint inputs_loop (inputs : list pyval) (acc : lists) : result lists :=
  match inputs with
  | [] => Ok acc
  | input_data :: rest =>
      prev_out <- getitem_str input_data "prev_out" ;;
      sender_address <- getitem_str prev_out "addr" ;;
      prev_out <- getitem_str input_data "prev_out" ;;
      amount <- getitem_str prev_out "value" ;;
      inputs_loop rest
        (Lists (sender_addresses acc ++ [sender_address])
               (recipient_addresses acc)
               (amounts acc ++ [amount]))
  end.

(** The loop over [tx["out"]]; the amount read last is never used. *)
Fixpoint outputs_loop (outs : list pyval) (acc : lists) : result lists :=
  match outs with
  | [] => Ok acc
  | output_data :: rest =>
      recipient_address <- getitem_str output_data "addr" ;;
      _ <- getitem_str output_data "value" ;;
      outputs_loop rest
        (Lists (sender_addresses acc)
               (recipient_addresses acc ++ [recipient_address])
               (amounts acc))
  end.

(** [len(tx["inputs"]) > 1 and len(tx["out"]) > 1] *)
Definition is_coinjoin (tx : pyval) : result bool :=
  inputs <- getitem_str tx "inputs" ;;
  n_in <- len inputs ;;
  if 1 <? n_in then
    out <- getitem_str tx "out" ;;
    n_out <- len out ;;
    Ok (1 <? n_out)
  else Ok false.

Definition scan_tx (tx : pyval) (acc : lists) : result lists :=
  mixed <- is_coinjoin tx ;;
  if mixed then
    inputs <- getitem_str tx "inputs" ;;
    inputs <- iter inputs ;;
    acc <- inputs_loop inputs acc ;;
    out <- getitem_str tx "out" ;;
    outs <- iter out ;;
    outputs_loop outs acc
  else Ok acc.

Fixpoint txs_loop (txs : list pyval) (acc : lists) : result lists :=
  match txs with
  | [] => Ok acc
  | tx :: rest => acc <- scan_tx tx acc ;; txs_loop rest acc
  end.

(** The body of the loop over the block range for one [block_num]. *)
Definition scan_block (net : network) (block_num : Z) (acc : lists)
  : result lists :=
  response <- requests_get net (RawBlock block_num) ;;
  if response_ok response then
    block_data <- response_json response ;;
    txs <- getitem_str block_data "tx" ;;
    txs <- iter txs ;;
    txs_loop txs acc
  else Ok acc.

Fixpoint blocks_loop (net : network) (block_nums : list Z) (acc : lists)
  : result lists :=
  match block_nums with
  | [] => Ok acc
  | block_num :: rest =>
      acc <- scan_block net block_num acc ;; blocks_loop net rest acc
  end.

(** [l[i]] on one of the local lists. *)
Definition local_index (l : list pyval) (i : Z) : result pyval :=
  match list_index l i with
  | Some x => Ok x
  | None => Raise IndexError
  end.

(** The final loop, [for i in range(len(sender_addresses))].  The rows
    appended before an exception stay in [self.matrix]. *)
Fixpoint pair_loop (idx : list Z) (ls : lists) (m : list (list pyval))
  : result unit * list (list pyval) :=
  match idx with
  | [] => (Ok tt, m)
  | i :: rest =>
      match (s <- local_index (sender_addresses ls) i ;;
             r <- local_index (recipient_addresses ls) i ;;
             a <- local_index (amounts ls) i ;;
             Ok [s; r; a]) with
      | Ok transaction => pair_loop rest ls (m ++ [transaction])
      | Raise e => (Raise e, m)
      end
  end.

Definition with_matrix (self : t) (m : list (list pyval)) : t :=
  Make (start_block self) (end_block self) m.

(** Returns what the call returns or raises, and the object after it. *)
Definition get_mixed_btc_transactions_from_btc_blocks (self : t)
    (net : network) : result (list (list pyval)) * t :=
  match blocks_loop net (range (start_block self) (end_block self + 1))
          (Lists [] [] []) with
  | Raise e => (Raise e, self)
  | Ok ls =>
      match pair_loop
              (range 0 (Z.of_nat (List.length (sender_addresses ls))))
              ls (matrix self) with
      | (Ok _, m) => (Ok m, with_matrix self m)
      | (Raise e, m) => (Raise e, with_matrix self m)
      end
  end.

End BtcBlockMonitoring.

(** ** Response shapes of the API

    Builders for the payloads the three endpoints deliver, and the shape of
    the unconfirmed feed:
    [{"txs": [{"inputs": [{"prev_out": {"addr": str}}],
               "out": [{"addr"?: str}]}]}]. *)

Definition input_of (addr value : pyval) : pyval :=
  PDict [("prev_out", PDict [("addr", addr); ("value", value)])].

Definition output_of (addr value : pyval) : pyval :=
  PDict [("addr", addr); ("value", value)].

Definition tx_of (inputs outs : list pyval) : pyval :=
  PDict [("inputs", PList inputs); ("out", PList outs)].

Definition feed_of (txs : list pyval) : pyval := PDict [("txs", PList txs)].

Definition block_of (txs : list pyval) : pyval := PDict [("tx", PList txs)].

(** A network that answers every request with [r]. *)
Definition always (r : response) : network := fun _ => Some r.

(** A network on which every request fails. *)
Definition unreachable : network := fun _ => None.

Definition feed_input (input : pyval) : bool :=
  match input with
  | PDict items =>
      match dict_get "prev_out" items with
      | Some (PDict prev_out) =>
          match dict_get "addr" prev_out with
          | Some (PStr _) => true
          | _ => false
          end
      | _ => false
      end
  | _ => false
  end.

Definition feed_output (output : pyval) : bool :=
  match output with
  | PDict items =>
      match dict_get "addr" items with
      | None | Some (PStr _) => true
      | _ => false
      end
  | _ => false
  end.

Definition feed_tx (tx : pyval) : bool :=
  match tx with
  | PDict items =>
      match dict_get "inputs" items, dict_get "out" items with
      | Some (PList inputs), Some (PList outs) =>
          forallb feed_input inputs && forallb feed_output outs
      | _, _ => false
      end
  | _ => false
  end.

Definition unconfirmed_feed (payload : pyval) : bool :=
  match payload with
  | PDict items =>
      match dict_get "txs" items with
      | Some (PList txs) => forallb feed_tx txs
      | _ => false
      end
  | _ => false
  end.

(** An output without the ["addr"] key. *)
Definition lacks_addr (output : pyval) : Prop :=
  exists items, output = PDict items /\ dict_get "addr" items = None.

(** ** Transactions of the address history

    A valid transaction for [get_transactions_from_btc_address]: it has both
    arrays, its first input has a source address, its first output has an
    address and a value, and none of the three is empty or zero.  The
    inputs and outputs after the first are left open. *)
Definition valid_transaction (tx : pyval) (tr : BtcAddressMonitoring.transfer)
  : Prop :=
  let '(from_address, to_address, amount) := tr in
  exists items input inputs output outs,
    tx = PDict items /\
    dict_get "inputs" items = Some (PList (input :: inputs)) /\
    dict_get "out" items = Some (PList (output :: outs)) /\
    (prev_out <- getitem_str input "prev_out" ;; getitem_str prev_out "addr")
    = Ok from_address /\
    getitem_str output "addr" = Ok to_address /\
    getitem_str output "value" = Ok amount /\
    truthy from_address = true /\
    truthy to_address = true /\
    truthy amount = true.

(** A transaction without the ["inputs"] key or without the ["out"] key. *)
Definition missing_array (tx : pyval) : Prop :=
  exists items,
    tx = PDict items /\
    (dict_get "inputs" items = None \/ dict_get "out" items = None).

(** [normalized txs trs]: [txs] holds valid transactions and transactions
    with a missing array, and [trs] are the transfers of the valid ones, in
    order. *)
Inductive normalized
  : list pyval -> list BtcAddressMonitoring.transfer -> Prop :=
| normalized_nil : normalized [] []
| normalized_valid tx tr txs trs :
    valid_transaction tx tr -> normalized txs trs ->
    normalized (tx :: txs) (tr :: trs)
| normalized_skip tx txs trs :
    missing_array tx -> normalized txs trs -> normalized (tx :: txs) trs.

(** ** Rows of the scanner

    The rows the final loop builds when it runs to its end: the i-th sender,
    the i-th recipient and the i-th amount, as far as all three lists go. *)
Fixpoint rows_of (senders recipients amounts : list pyval)
  : list (list pyval) :=
  match senders, recipients, amounts with
  | s :: senders', r :: recipients', a :: amounts' =>
      [s; r; a] :: rows_of senders' recipients' amounts'
  | _, _, _ => []
  end.

(** ** Where the rows of the scanner come from *)

(** The transactions the scanner visits in block [block_num]: none when the
    status of the reply is 4xx or 5xx. *)
Definition block_transactions (net : network) (block_num : Z)
  : result (list pyval) :=
  response <- requests_get net (RawBlock block_num) ;;
  if response_ok response then
    block_data <- response_json response ;;
    txs <- getitem_str block_data "tx" ;;
    iter txs
  else Ok [].

(** [s] and [a] are the address and the value under ["prev_out"] of one
    input of a transaction with several inputs and several outputs, in a
    block of the range. *)
Definition input_source (net : network) (self : BtcBlockMonitoring.t)
    (s a : pyval) : Prop :=
  exists block_num txs tx inputs input prev_out,
    In block_num (range (BtcBlockMonitoring.start_block self)
                        (BtcBlockMonitoring.end_block self + 1)) /\
    block_transactions net block_num = Ok txs /\
    In tx txs /\
    BtcBlockMonitoring.is_coinjoin tx = Ok true /\
    (v <- getitem_str tx "inputs" ;; iter v) = Ok inputs /\
    In input inputs /\
    getitem_str input "prev_out" = Ok prev_out /\
    getitem_str prev_out "addr" = Ok s /\
    getitem_str prev_out "value" = Ok a.

(** [r] is the address of one output of such a transaction. *)
Definition output_source (net : network) (self : BtcBlockMonitoring.t)
    (r : pyval) : Prop :=
  exists block_num txs tx outs output,
    In block_num (range (BtcBlockMonitoring.start_block self)
                        (BtcBlockMonitoring.end_block self + 1)) /\
    block_transactions net block_num = Ok txs /\
    In tx txs /\
    BtcBlockMonitoring.is_coinjoin tx = Ok true /\
    (v <- getitem_str tx "out" ;; iter v) = Ok outs /\
    In output outs /\
    getitem_str output "addr" = Ok r.

(** The invariant of the scan: every sender comes with its amount and
    satisfies [P] with it, every recipient satisfies [Q]. *)
Definition lists_from (P : pyval -> pyval -> Prop) (Q : pyval -> Prop)
    (ls : BtcBlockMonitoring.lists) : Prop :=
  Forall2 P (BtcBlockMonitoring.sender_addresses ls)
            (BtcBlockMonitoring.amounts ls) /\
  Forall Q (BtcBlockMonitoring.recipient_addresses ls).

Definition input_from (P : pyval -> pyval -> Prop) (input : pyval) : Prop :=
  forall prev_out s a,
    getitem_str input "prev_out" = Ok prev_out ->
    getitem_str prev_out "addr" = Ok s ->
    getitem_str prev_out "value" = Ok a ->
    P s a.

Definition output_from (Q : pyval -> Prop) (output : pyval) : Prop :=
  forall r, getitem_str output "addr" = Ok r -> Q r.

Definition tx_from (P : pyval -> pyval -> Prop) (Q : pyval -> Prop)
    (tx : pyval) : Prop :=
  BtcBlockMonitoring.is_coinjoin tx = Ok true ->
  (forall inputs, (v <- getitem_str tx "inputs" ;; iter v) = Ok inputs ->
                  Forall (input_from P) inputs) /\
  (forall outs, (v <- getitem_str tx "out" ;; iter v) = Ok outs ->
                Forall (output_from Q) outs).

(** ** Calls in sequence on one monitor *)

(** The monitor after one call of [get_transactions_from_btc_address] per
    network of [nets], in order. *)
Definition after_history_calls (nets : list network)
    (self : BtcAddressMonitoring.t) : BtcAddressMonitoring.t :=
  fold_left
    (fun self net =>
       snd (BtcAddressMonitoring.get_transactions_from_btc_address self net))
    nets self.

(** A transfer with both addresses and the amount present and not empty or
    zero. *)
Definition complete_transfer (tr : BtcAddressMonitoring.transfer) : Prop :=
  let '(from_address, to_address, amount) := tr in
  truthy from_address = true /\
  truthy to_address = true /\
  truthy amount = true.

(** The exceptions a subscript, a membership test or a loop over a decoded
    value can raise. *)
Definition lookup_fault (e : exn) : Prop :=
  e = KeyError \/ e = IndexError \/ e = TypeError.

(** ** Shapes used by the further properties *)


(** An output of the feed that does not stop the incoming check and does
    not hold the address [w]. *)
Definition other_output (w : string) (output : pyval) : Prop :=
  feed_output output = true /\ getitem_str output "addr" <> Ok (PStr w).




(** * Properties *)

(** ** Basic facts about the Python operations *)

Lemma list_index_0_cons {A : Type} (x : A) (l : list A) :
  list_index (x :: l) 0 = Some x.
Proof. reflexivity. Qed.

Lemma list_index_0_nil {A : Type} : list_index (@nil A) 0 = None.
Proof. reflexivity. Qed.

Lemma list_index_nat {A : Type} (l : list A) (i : nat) :
  list_index l (Z.of_nat i) = nth_error l i.
Proof.
  unfold list_index.
  destruct (Z.ltb_spec (Z.of_nat i) 0) as [Hneg | _]; [lia |].
  destruct (Z.leb_spec 0 (Z.of_nat i)) as [_ | Hneg]; [| lia].
  rewrite Nat2Z.id. simpl.
  destruct (Z.ltb_spec (Z.of_nat i) (Z.of_nat (List.length l))) as [Hlt | Hge].
  - reflexivity.
  - symmetry. apply nth_error_None. lia.
Qed.

Lemma range_0_seq (n : nat) : range 0 (Z.of_nat n) = map Z.of_nat (seq 0 n).
Proof.
  unfold range. rewrite Z.sub_0_r, Nat2Z.id.
  apply map_ext. intros i. apply Z.add_0_l.
Qed.

Lemma range_single (n : Z) : range n (n + 1) = [n].
Proof.
  unfold range. replace (n + 1 - n) with 1 by lia.
  simpl. f_equal. lia.
Qed.

Lemma response_ok_true (r : response) :
  response_ok r = true -> raise_for_status r = Ok tt.
Proof.
  unfold response_ok. destruct (raise_for_status r) as [[] | e]; congruence.
Qed.

Lemma response_ok_false (r : response) :
  response_ok r = false -> raise_for_status r = Raise HTTPError.
Proof.
  unfold response_ok, raise_for_status.
  destruct ((400 <=? status_code r) && (status_code r <? 600)); congruence.
Qed.

Lemma response_ok_status (r : response) :
  response_ok r = false <-> 400 <= status_code r < 600.
Proof.
  unfold response_ok, raise_for_status.
  destruct (Z.leb_spec 400 (status_code r));
    destruct (Z.ltb_spec (status_code r) 600); simpl;
    split; intros; try lia; congruence.
Qed.

Lemma try_except_ok {A : Type} (a : A) cs msg (k : A -> outcome) :
  try_except (Ok a) cs msg k = k a.
Proof. reflexivity. Qed.

(** ** The two boolean operations *)

Section Unconfirmed.
Import BtcAddressMonitoring.

Variable self : t.
Variable net : network.


Lemma fetch_unconfirmed_bad_status (r : response) :
  net UnconfirmedTransactions = Some r ->
  response_ok r = false ->
  fetch_unconfirmed net = Raise HTTPError.
Proof.
  intros H Hok. unfold fetch_unconfirmed, requests_get. rewrite H. simpl.
  now rewrite (response_ok_false _ Hok).
Qed.

Lemma fetch_unconfirmed_ok (r : response) :
  net UnconfirmedTransactions = Some r ->
  response_ok r = true ->
  fetch_unconfirmed net = Ok r.
Proof.
  intros H Hok. unfold fetch_unconfirmed, requests_get. rewrite H. simpl.
  now rewrite (response_ok_true _ Hok).
Qed.


(** A status 4xx or 5xx: both operations print and return [False]. *)
Lemma boolean_ops_bad_status (r : response) :
  net UnconfirmedTransactions = Some r ->
  response_ok r = false ->
  is_tx_transaction_from_btc_address self net
    = (Ok false, [RetrieveFailed HTTPError]) /\
  is_rx_transaction_to_btc_address self net
    = (Ok false, [RetrieveFailed HTTPError]).
Proof.
  intros H Hok.
  unfold is_tx_transaction_from_btc_address,
    is_rx_transaction_to_btc_address.
  rewrite (fetch_unconfirmed_bad_status _ H Hok). split; reflexivity.
Qed.

(** A body that is not JSON: both operations print and return [False]. *)
Lemma boolean_ops_bad_json (r : response) :
  net UnconfirmedTransactions = Some r ->
  response_ok r = true ->
  body r = None ->
  is_tx_transaction_from_btc_address self net
    = (Ok false, [ParseFailed JSONDecodeError]) /\
  is_rx_transaction_to_btc_address self net
    = (Ok false, [ParseFailed JSONDecodeError]).
Proof.
  intros H Hok Hbody.
  unfold is_tx_transaction_from_btc_address,
    is_rx_transaction_to_btc_address.
  rewrite (fetch_unconfirmed_ok _ H Hok), !try_except_ok.
  unfold response_json. rewrite Hbody. split; reflexivity.
Qed.

(** With a decoded payload, the outcome is that of the third [try]. *)
Lemma is_tx_on_payload (r : response) (payload : pyval) :
  net UnconfirmedTransactions = Some r ->
  response_ok r = true ->
  body r = Some payload ->
  is_tx_transaction_from_btc_address self net
    = try_except (tx_search (watch_address self) payload)
        [KeyError_class; IndexError_class] SchemaFailed
        (fun b => (Ok b, [])).
Proof.
  intros H Hok Hbody. unfold is_tx_transaction_from_btc_address.
  rewrite (fetch_unconfirmed_ok _ H Hok), try_except_ok.
  unfold response_json. rewrite Hbody. reflexivity.
Qed.

Lemma is_rx_on_payload (r : response) (payload : pyval) :
  net UnconfirmedTransactions = Some r ->
  response_ok r = true ->
  body r = Some payload ->
  is_rx_transaction_to_btc_address self net
    = try_except (rx_search (watch_address self) payload)
        [KeyError_class; IndexError_class] SchemaFailed
        (fun b => (Ok b, [])).
Proof.
  intros H Hok Hbody. unfold is_rx_transaction_to_btc_address.
  rewrite (fetch_unconfirmed_ok _ H Hok), try_except_ok.
  unfold response_json. rewrite Hbody. reflexivity.
Qed.

End Unconfirmed.

(** What the third [try] makes of each result of its body. *)
Lemma try_schema_ok (b : bool) :
  try_except (Ok b) [KeyError_class; IndexError_class] SchemaFailed
    (fun b => (Ok b, [])) = (Ok b, []).
Proof. reflexivity. Qed.

Lemma try_schema_raise (e : exn) :
  try_except (@Raise bool e) [KeyError_class; IndexError_class] SchemaFailed
    (fun b => (Ok b, []))
  = match e with
    | KeyError | IndexError => (Ok false, [SchemaFailed e])
    | _ => (Raise e, [])
    end.
Proof. destruct e; reflexivity. Qed.

(** ** Outgoing transactions: the loop over the feed *)

Section Outgoing.
Import BtcAddressMonitoring.

Variable w : string.

(** Transactions whose first input has an address do not stop the loop
    before a later match. *)
Lemma tx_loop_hit (pre post : list pyval) (tx a : pyval) :
  Forall (fun t => exists b, first_input_addr t = Ok b) pre ->
  first_input_addr tx = Ok a ->
  eq_str a w = true ->
  tx_loop w (pre ++ tx :: post) = Ok true.
Proof.
  intros Hpre Htx Ha. induction Hpre as [| t pre [b Hb] _ IH]; simpl.
  - rewrite Htx. simpl. now rewrite Ha.
  - rewrite Hb. simpl. rewrite IH. now destruct (eq_str b w).
Qed.

Lemma tx_loop_no_match (txs : list pyval) :
  (forall tx a, In tx txs -> first_input_addr tx = Ok a ->
                eq_str a w = false) ->
  tx_loop w txs <> Ok true.
Proof.
  induction txs as [| tx txs IH]; intros Hno; simpl.
  - discriminate.
  - destruct (first_input_addr tx) as [a | e] eqn:Ha; simpl.
    + rewrite (Hno tx a (or_introl eq_refl) Ha).
      apply IH. intros tx' a' Hin. apply Hno. now right.
    + discriminate.
Qed.

(** In a feed of the documented shape the first input of a transaction
    has a string address, unless the transaction has no input. *)
Lemma first_input_addr_shaped (tx : pyval) :
  feed_tx tx = true ->
  (exists s, first_input_addr tx = Ok (PStr s)) \/
  first_input_addr tx = Raise IndexError.
Proof.
  unfold feed_tx, first_input_addr. intros H.
  destruct tx as [| | | | | items]; try discriminate. simpl.
  destruct (dict_get "inputs" items) as [[| | | | inputs |] |];
    try discriminate.
  destruct (dict_get "out" items) as [[| | | | outs |] |]; try discriminate.
  destruct inputs as [| input inputs]; [now right | left].
  simpl in H. apply andb_prop in H as [H _]. apply andb_prop in H as [H _].
  unfold feed_input in H.
  destruct input as [| | | | | iitems]; try discriminate. simpl.
  destruct (dict_get "prev_out" iitems) as [[| | | | | pitems] |];
    try discriminate. simpl.
  destruct (dict_get "addr" pitems) as [[| | | s | |] |]; try discriminate.
  now exists s.
Qed.

Lemma tx_loop_shaped (txs : list pyval) :
  forallb feed_tx txs = true ->
  (exists b, tx_loop w txs = Ok b) \/ tx_loop w txs = Raise IndexError.
Proof.
  induction txs as [| tx txs IH]; simpl; intros H.
  - left. now exists false.
  - apply andb_prop in H as [Htx Htxs].
    destruct (first_input_addr_shaped tx Htx) as [[s Hs] | He].
    + rewrite Hs. simpl. destruct (String.eqb s w).
      * left. now exists true.
      * now apply IH.
    + rewrite He. now right.
Qed.

End Outgoing.

(** ** Incoming transactions: the loops over the feed and over the outputs *)

Section Incoming.
Import BtcAddressMonitoring.

Variable w : string.

Lemma out_loop_lacks (o : pyval) (rest : list pyval) :
  lacks_addr o -> out_loop w (o :: rest) = out_loop w rest.
Proof. intros (items & -> & Hnone). simpl. now rewrite Hnone. Qed.

Lemma out_loop_cons_shaped (o : pyval) (rest : list pyval) :
  feed_output o = true ->
  out_loop w (o :: rest) = Ok true \/
  out_loop w (o :: rest) = out_loop w rest.
Proof.
  unfold feed_output. intros H.
  destruct o as [| | | | | items]; try discriminate. simpl.
  destruct (dict_get "addr" items) as [[| | | s | |] |];
    try discriminate; simpl; [| now right].
  destruct (String.eqb s w); auto.
Qed.

Lemma out_loop_total (outs : list pyval) :
  forallb feed_output outs = true -> exists b, out_loop w outs = Ok b.
Proof.
  induction outs as [| o outs IH]; intros H.
  - now exists false.
  - simpl in H. apply andb_prop in H as [Ho Houts].
    destruct (out_loop_cons_shaped o outs Ho) as [-> | ->].
    + now exists true.
    + now apply IH.
Qed.

Lemma out_loop_match (o a : pyval) (rest : list pyval) :
  getitem_str o "addr" = Ok a -> eq_str a w = true ->
  out_loop w (o :: rest) = Ok true.
Proof.
  intros Ho Ha. destruct o as [| | | | | items]; try discriminate.
  simpl in *. destruct (dict_get "addr" items) as [v |]; [| discriminate].
  injection Ho as ->. simpl. now rewrite Ha.
Qed.

(** The outputs before a match do not hide it. *)
Lemma out_loop_hit (opre opost : list pyval) (o a : pyval) :
  forallb feed_output opre = true ->
  getitem_str o "addr" = Ok a -> eq_str a w = true ->
  out_loop w (opre ++ o :: opost) = Ok true.
Proof.
  intros Hpre Ho Ha. induction opre as [| o' opre IH].
  - now apply out_loop_match with a.
  - simpl in Hpre. apply andb_prop in Hpre as [Ho' Hpre].
    rewrite <- app_comm_cons.
    destruct (out_loop_cons_shaped o' (opre ++ o :: opost) Ho') as [-> | ->].
    + reflexivity.
    + now apply IH.
Qed.

(** An output without address can be taken out of the list. *)
Lemma out_loop_skip (opre opost : list pyval) (o : pyval) :
  lacks_addr o ->
  out_loop w (opre ++ o :: opost) = out_loop w (opre ++ opost).
Proof.
  intros Ho. induction opre as [| o' opre IH].
  - now apply out_loop_lacks.
  - simpl. now rewrite IH.
Qed.

Lemma out_loop_all_lack (outs : list pyval) :
  Forall lacks_addr outs -> out_loop w outs = Ok false.
Proof.
  induction 1 as [| o outs Ho _ IH]; [reflexivity |].
  now rewrite out_loop_lacks.
Qed.

Lemma rx_loop_cons (tx : pyval) (rest outs : list pyval) :
  getitem_str tx "out" = Ok (PList outs) ->
  rx_loop w (tx :: rest)
  = (hit <- out_loop w outs ;; if hit then Ok true else rx_loop w rest).
Proof. intros H. simpl. now rewrite H. Qed.

Lemma feed_tx_out (tx : pyval) :
  feed_tx tx = true ->
  exists outs, getitem_str tx "out" = Ok (PList outs) /\
               forallb feed_output outs = true.
Proof.
  unfold feed_tx. intros H.
  destruct tx as [| | | | | items]; try discriminate. simpl.
  destruct (dict_get "inputs" items) as [[| | | | inputs |] |];
    try discriminate.
  destruct (dict_get "out" items) as [[| | | | outs |] |]; try discriminate.
  apply andb_prop in H as [_ H]. now exists outs.
Qed.

Lemma rx_loop_cons_shaped (tx : pyval) (rest : list pyval) :
  feed_tx tx = true ->
  rx_loop w (tx :: rest) = Ok true \/
  rx_loop w (tx :: rest) = rx_loop w rest.
Proof.
  intros H. destruct (feed_tx_out tx H) as (outs & Hout & Houts).
  rewrite (rx_loop_cons tx rest outs Hout).
  destruct (out_loop_total outs Houts) as [[] ->]; auto.
Qed.

(** The transactions before a match do not hide it. *)
Lemma rx_loop_hit (pre post outs : list pyval) (tx : pyval) :
  forallb feed_tx pre = true ->
  getitem_str tx "out" = Ok (PList outs) ->
  out_loop w outs = Ok true ->
  rx_loop w (pre ++ tx :: post) = Ok true.
Proof.
  intros Hpre Hout Hhit. induction pre as [| t pre IH].
  - simpl app. rewrite (rx_loop_cons tx post outs Hout), Hhit. reflexivity.
  - simpl in Hpre. apply andb_prop in Hpre as [Ht Hpre].
    rewrite <- app_comm_cons.
    destruct (rx_loop_cons_shaped t (pre ++ tx :: post) Ht) as [-> | ->].
    + reflexivity.
    + now apply IH.
Qed.

Lemma rx_loop_skip (pre post opre opost : list pyval) (tx tx' o : pyval) :
  getitem_str tx "out" = Ok (PList (opre ++ o :: opost)) ->
  getitem_str tx' "out" = Ok (PList (opre ++ opost)) ->
  lacks_addr o ->
  rx_loop w (pre ++ tx :: post) = rx_loop w (pre ++ tx' :: post).
Proof.
  intros Hout Hout' Ho. induction pre as [| t pre IH].
  - simpl app.
    rewrite (rx_loop_cons tx post _ Hout), (rx_loop_cons tx' post _ Hout').
    now rewrite out_loop_skip.
  - simpl. now rewrite IH.
Qed.

Lemma rx_loop_all_lack (txs : list pyval) :
  Forall (fun tx => exists outs, getitem_str tx "out" = Ok (PList outs) /\
                                 Forall lacks_addr outs) txs ->
  rx_loop w txs = Ok false.
Proof.
  induction 1 as [| tx txs (outs & Hout & Houts) _ IH]; [reflexivity |].
  rewrite (rx_loop_cons tx txs outs Hout), (out_loop_all_lack outs Houts).
  exact IH.
Qed.

Lemma rx_search_txs (payload : pyval) (txs : list pyval) :
  getitem_str payload "txs" = Ok (PList txs) ->
  rx_search w payload = rx_loop w txs.
Proof. intros H. unfold rx_search. now rewrite H. Qed.

Lemma tx_search_txs (payload : pyval) (txs : list pyval) :
  getitem_str payload "txs" = Ok (PList txs) ->
  tx_search w payload = tx_loop w txs.
Proof. intros H. unfold tx_search. now rewrite H. Qed.

Lemma lacks_addr_shaped (o : pyval) : lacks_addr o -> feed_output o = true.
Proof. intros (items & -> & H). simpl. now rewrite H. Qed.

(** A prefix that ends without a match and without an exception hands
    over to the rest of the list. *)
Lemma out_loop_app_false (opre rest : list pyval) :
  out_loop w opre = Ok false ->
  out_loop w (opre ++ rest) = out_loop w rest.
Proof.
  induction opre as [| o opre IH]; [reflexivity |]. simpl.
  destruct (contains "addr" o) as [has_addr | e]; [| discriminate]. simpl.
  destruct (if has_addr then _ else _) as [[] | e]; try discriminate; simpl.
  exact IH.
Qed.

Lemma rx_loop_app_false (pre rest : list pyval) :
  rx_loop w pre = Ok false ->
  rx_loop w (pre ++ rest) = rx_loop w rest.
Proof.
  induction pre as [| tx pre IH]; [reflexivity |]. simpl.
  destruct (getitem_str tx "out") as [out | e]; [| discriminate]. simpl.
  destruct (iter out) as [outs | e]; [| discriminate]. simpl.
  destruct (out_loop w outs) as [[] | e]; try discriminate; simpl.
  exact IH.
Qed.

Lemma rx_loop_shaped_total (txs : list pyval) :
  forallb feed_tx txs = true -> exists b, rx_loop w txs = Ok b.
Proof.
  induction txs as [| tx txs IH]; intros H.
  - now exists false.
  - simpl in H. apply andb_prop in H as [Htx Htxs].
    destruct (rx_loop_cons_shaped tx txs Htx) as [-> | ->].
    + now exists true.
    + now apply IH.
Qed.

End Incoming.

Lemma unconfirmed_feed_txs (payload : pyval) :
  unconfirmed_feed payload = true ->
  exists txs, getitem_str payload "txs" = Ok (PList txs) /\
              forallb feed_tx txs = true.
Proof.
  unfold unconfirmed_feed. intros H.
  destruct payload as [| | | | | items]; try discriminate. simpl.
  destruct (dict_get "txs" items) as [[| | | | txs |] |]; try discriminate.
  now exists txs.
Qed.

(** ** Claims about the unconfirmed feed *)

Section UnconfirmedClaims.
Import BtcAddressMonitoring.

(** C6, as stated, fails: a feed of the documented shape holds a
    transaction whose first input is the watched address ["W"], but a
    transaction without inputs comes before it; the subscript [[0]] raises
    [IndexError], the handler prints and the operation returns [False]. *)
Lemma C6_counterexample :
  let hit := tx_of [input_of (PStr "W") (PInt 1)] [] in
  let feed := feed_of [tx_of [] []; hit] in
  unconfirmed_feed feed = true /\
  first_input_addr hit = Ok (PStr "W") /\
  is_tx_transaction_from_btc_address (init "W")
    (always (Response 200 (Some feed)))
  = (Ok false, [SchemaFailed IndexError]).
Proof. repeat split. Qed.

(** C6 (amended): for a decoded feed whose ["txs"] is a list,
    [is_tx_transaction_from_btc_address] returns [True] when some
    transaction's first-input address equals the watched address and every
    transaction before it has a first-input address, whatever the
    transactions after it hold; when no transaction's first-input address
    equals the watched address it never returns [True], and it returns
    [False] on every feed of the documented shape. *)
Theorem C6_outgoing_first_input_match :
  forall (self : t) (net : network) (r : response) (payload : pyval)
         (txs : list pyval),
    net UnconfirmedTransactions = Some r ->
    response_ok r = true ->
    body r = Some payload ->
    getitem_str payload "txs" = Ok (PList txs) ->
    (forall pre tx post a,
        txs = pre ++ tx :: post ->
        Forall (fun t => exists b, first_input_addr t = Ok b) pre ->
        first_input_addr tx = Ok a ->
        eq_str a (watch_address self) = true ->
        is_tx_transaction_from_btc_address self net = (Ok true, [])) /\
    ((forall tx a, In tx txs -> first_input_addr tx = Ok a ->
                   eq_str a (watch_address self) = false) ->
     fst (is_tx_transaction_from_btc_address self net) <> Ok true /\
     (unconfirmed_feed payload = true ->
      fst (is_tx_transaction_from_btc_address self net) = Ok false)).
Proof.
  intros self net r payload txs Hnet Hok Hbody Htxs.
  rewrite (is_tx_on_payload self net r payload Hnet Hok Hbody).
  rewrite (tx_search_txs _ payload txs Htxs).
  split.
  - intros pre tx post a -> Hpre Htx Ha.
    now rewrite (tx_loop_hit _ pre post tx a Hpre Htx Ha).
  - intros Hno.
    pose proof (tx_loop_no_match (watch_address self) txs Hno) as Hne.
    split.
    + destruct (tx_loop (watch_address self) txs) as [[] | e].
      * congruence.
      * simpl. discriminate.
      * rewrite try_schema_raise. destruct e; simpl; discriminate.
    + intros Hshape.
      destruct (unconfirmed_feed_txs payload Hshape) as (txs' & Htxs' & Hall).
      assert (txs' = txs) as -> by congruence.
      destruct (tx_loop_shaped (watch_address self) txs Hall)
        as [[[] Hb] | He].
      * congruence.
      * now rewrite Hb.
      * now rewrite He.
Qed.

Lemma C6_outgoing_first_input_match_witness :
  let quiet := tx_of [input_of (PStr "A") (PInt 3)] [] in
  let hit := tx_of [input_of (PStr "W") (PInt 1)] [] in
  is_tx_transaction_from_btc_address (init "W")
    (always (Response 200 (Some (feed_of [quiet; hit; PNone]))))
  = (Ok true, []) /\
  fst (is_tx_transaction_from_btc_address (init "W")
         (always (Response 200 (Some (feed_of [quiet; tx_of [] []])))))
  = Ok false.
Proof.
  intros quiet hit. split.
  - apply (proj1 (C6_outgoing_first_input_match (init "W")
                    (always (Response 200 (Some (feed_of [quiet; hit; PNone]))))
                    (Response 200 (Some (feed_of [quiet; hit; PNone])))
                    (feed_of [quiet; hit; PNone]) [quiet; hit; PNone]
                    eq_refl eq_refl eq_refl eq_refl)
             [quiet] hit [PNone] (PStr "W") eq_refl).
    + constructor; [now exists (PStr "A") | constructor].
    + reflexivity.
    + reflexivity.
  - apply (proj2 (C6_outgoing_first_input_match (init "W")
                    (always (Response 200 (Some (feed_of [quiet; tx_of [] []]))))
                    (Response 200 (Some (feed_of [quiet; tx_of [] []])))
                    (feed_of [quiet; tx_of [] []]) [quiet; tx_of [] []]
                    eq_refl eq_refl eq_refl eq_refl)).
    + intros tx a [<- | [<- | []]] H; vm_compute in H.
      * injection H as <-. reflexivity.
      * discriminate.
    + reflexivity.
Defined.

(** C7: on a feed of the documented shape that holds a transaction with
    an output, at any index, whose address equals the watched address,
    [is_rx_transaction_to_btc_address] returns [True] and prints nothing.
    It stops at the first match: what follows the matching output, in the
    same or in later transactions, is not looked at and may hold anything. *)
Theorem C7_incoming_match_any_output :
  forall (self : t) (net : network) (r : response) (payload : pyval)
         (txs : list pyval),
    net UnconfirmedTransactions = Some r ->
    response_ok r = true ->
    body r = Some payload ->
    getitem_str payload "txs" = Ok (PList txs) ->
    (unconfirmed_feed payload = true ->
     forall tx outs output a,
       In tx txs ->
       getitem_str tx "out" = Ok (PList outs) ->
       In output outs ->
       getitem_str output "addr" = Ok a ->
       eq_str a (watch_address self) = true ->
       is_rx_transaction_to_btc_address self net = (Ok true, [])) /\
    (forall pre tx post opre output opost a,
        txs = pre ++ tx :: post ->
        forallb feed_tx pre = true ->
        getitem_str tx "out" = Ok (PList (opre ++ output :: opost)) ->
        forallb feed_output opre = true ->
        getitem_str output "addr" = Ok a ->
        eq_str a (watch_address self) = true ->
        is_rx_transaction_to_btc_address self net = (Ok true, [])).
Proof.
  intros self net r payload txs Hnet Hok Hbody Htxs.
  rewrite (is_rx_on_payload self net r payload Hnet Hok Hbody).
  rewrite (rx_search_txs _ payload txs Htxs).
  assert (Hprefix : forall pre tx post opre output opost a,
             txs = pre ++ tx :: post ->
             forallb feed_tx pre = true ->
             getitem_str tx "out" = Ok (PList (opre ++ output :: opost)) ->
             forallb feed_output opre = true ->
             getitem_str output "addr" = Ok a ->
             eq_str a (watch_address self) = true ->
             rx_loop (watch_address self) txs = Ok true).
  { intros pre tx post opre output opost a -> Hpre Hout Hopre Ho Ha.
    apply rx_loop_hit with (outs := opre ++ output :: opost); trivial.
    now apply out_loop_hit with a. }
  split.
  - intros Hshape tx outs output a Hin Hout Hino Ho Ha.
    destruct (unconfirmed_feed_txs payload Hshape) as (txs' & Htxs' & Hall).
    assert (txs' = txs) as -> by congruence.
    destruct (in_split tx txs Hin) as (pre & post & Hsplit).
    rewrite Hsplit, forallb_app in Hall. simpl in Hall.
    apply andb_prop in Hall as [Hpre Hrest].
    apply andb_prop in Hrest as [Htx _].
    destruct (feed_tx_out tx Htx) as (outs' & Hout' & Houts).
    assert (outs' = outs) as -> by congruence.
    destruct (in_split output outs Hino) as (opre & opost & Hosplit).
    rewrite Hosplit, forallb_app in Houts.
    apply andb_prop in Houts as [Hopre _].
    rewrite Hosplit in Hout.
    now rewrite (Hprefix pre tx post opre output opost a Hsplit Hpre Hout
                   Hopre Ho Ha).
  - intros pre tx post opre output opost a Hsplit Hpre Hout Hopre Ho Ha.
    now rewrite (Hprefix pre tx post opre output opost a Hsplit Hpre Hout
                   Hopre Ho Ha).
Qed.

Lemma C7_incoming_match_any_output_witness :
  let first := tx_of [input_of (PStr "A") (PInt 3)]
                     [output_of (PStr "B") (PInt 3)] in
  let hit := tx_of [input_of (PStr "A") (PInt 9)]
                   [PDict [("value", PInt 4)]; output_of (PStr "W") (PInt 5)] in
  is_rx_transaction_to_btc_address (init "W")
    (always (Response 200 (Some (feed_of [first; hit]))))
  = (Ok true, []).
Proof.
  intros first hit.
  apply (proj1 (C7_incoming_match_any_output (init "W")
                  (always (Response 200 (Some (feed_of [first; hit]))))
                  (Response 200 (Some (feed_of [first; hit])))
                  (feed_of [first; hit]) [first; hit]
                  eq_refl eq_refl eq_refl eq_refl)
           eq_refl hit
           [PDict [("value", PInt 4)]; output_of (PStr "W") (PInt 5)]
           (output_of (PStr "W") (PInt 5)) (PStr "W")).
  - right. now left.
  - reflexivity.
  - right. now left.
  - reflexivity.
  - reflexivity.
Defined.

(** C9, as stated, fails.  A status that is not 2xx is not always an
    error for [raise_for_status], which raises on 4xx and 5xx only: with
    status 300 and a well-formed feed both operations return [True].  And
    a JSON body without a ["txs"] key need not be an object: on the body
    [[]] the subscript raises [TypeError], which no handler catches. *)
Lemma C9_counterexample :
  let feed := feed_of [tx_of [input_of (PStr "W") (PInt 1)]
                             [output_of (PStr "W") (PInt 1)]] in
  let redirect := Response 300 (Some feed) in
  ~ (200 <= status_code redirect < 300) /\
  is_tx_transaction_from_btc_address (init "W") (always redirect)
  = (Ok true, []) /\
  is_rx_transaction_to_btc_address (init "W") (always redirect)
  = (Ok true, []) /\
  is_tx_transaction_from_btc_address (init "W")
    (always (Response 200 (Some (PList [])))) = (Raise TypeError, []) /\
  is_rx_transaction_to_btc_address (init "W")
    (always (Response 200 (Some (PList [])))) = (Raise TypeError, []).
Proof. simpl. repeat split. lia. Qed.

(** C9 (amended): when the reply to the feed request has a status 4xx or
    5xx, or a body that is not valid JSON, or a body that is a JSON object
    without the ["txs"] key, both boolean operations return [False] and
    raise nothing. *)
Theorem C9_malformed_feed_yields_false :
  forall (self : t) (net : network) (r : response),
    net UnconfirmedTransactions = Some r ->
    (400 <= status_code r < 600) \/
    body r = None \/
    (exists items, body r = Some (PDict items) /\
                   dict_get "txs" items = None) ->
    fst (is_tx_transaction_from_btc_address self net) = Ok false /\
    fst (is_rx_transaction_to_btc_address self net) = Ok false.
Proof.
  intros self net r Hnet Hbad.
  destruct (response_ok r) eqn:Hok.
  - destruct Hbad as [Hst | [Hbody | (items & Hbody & Hnone)]].
    + apply response_ok_status in Hst. congruence.
    + destruct (boolean_ops_bad_json self net r Hnet Hok Hbody) as [-> ->].
      now split.
    + rewrite (is_tx_on_payload self net r _ Hnet Hok Hbody),
        (is_rx_on_payload self net r _ Hnet Hok Hbody).
      unfold tx_search, rx_search. simpl. rewrite Hnone. now split.
  - destruct (boolean_ops_bad_status self net r Hnet Hok) as [-> ->].
    now split.
Qed.

Lemma C9_malformed_feed_yields_false_witness :
  (fst (is_tx_transaction_from_btc_address (init "W")
          (always (Response 500 (Some (feed_of []))))) = Ok false /\
   fst (is_rx_transaction_to_btc_address (init "W")
          (always (Response 500 (Some (feed_of []))))) = Ok false) /\
  (fst (is_tx_transaction_from_btc_address (init "W")
          (always (Response 200 None))) = Ok false /\
   fst (is_rx_transaction_to_btc_address (init "W")
          (always (Response 200 None))) = Ok false) /\
  (fst (is_tx_transaction_from_btc_address (init "W")
          (always (Response 200 (Some (PDict [("error", PStr "busy")])))))
   = Ok false /\
   fst (is_rx_transaction_to_btc_address (init "W")
          (always (Response 200 (Some (PDict [("error", PStr "busy")])))))
   = Ok false).
Proof.
  repeat apply conj.
  1, 2: apply (C9_malformed_feed_yields_false (init "W")
                 (always (Response 500 (Some (feed_of []))))
                 (Response 500 (Some (feed_of []))) eq_refl);
        left; simpl; lia.
  1, 2: apply (C9_malformed_feed_yields_false (init "W")
                 (always (Response 200 None)) (Response 200 None) eq_refl);
        right; left; reflexivity.
  1, 2: apply (C9_malformed_feed_yields_false (init "W")
                 (always (Response 200 (Some (PDict [("error", PStr "busy")]))))
                 (Response 200 (Some (PDict [("error", PStr "busy")])))
                 eq_refl);
        right; right; exists [("error", PStr "busy")]; split; reflexivity.
Defined.

(** C10: [is_rx_transaction_to_btc_address] passes over an output that has
    no ["addr"] key.  (1) The outcome, diagnostics included, is the one of
    the same feed without that output, whatever else the feed holds.
    (2) When the outputs visited before an output with the watched address
    all lack an address, the operation returns [True].  (3) When every
    output of the feed lacks an address, the operation returns [False] at
    its last line: no handler runs and nothing is printed. *)
Theorem C10_incoming_skips_outputs_without_addr :
  forall (self : t) (net : network) (r : response) (payload : pyval),
    net UnconfirmedTransactions = Some r ->
    response_ok r = true ->
    body r = Some payload ->
    (forall net' r' payload' pre tx tx' post opre output opost,
        net' UnconfirmedTransactions = Some r' ->
        response_ok r' = true ->
        body r' = Some payload' ->
        getitem_str payload "txs" = Ok (PList (pre ++ tx :: post)) ->
        getitem_str payload' "txs" = Ok (PList (pre ++ tx' :: post)) ->
        getitem_str tx "out" = Ok (PList (opre ++ output :: opost)) ->
        getitem_str tx' "out" = Ok (PList (opre ++ opost)) ->
        lacks_addr output ->
        is_rx_transaction_to_btc_address self net
        = is_rx_transaction_to_btc_address self net') /\
    (forall pre tx post opre output opost a,
        getitem_str payload "txs" = Ok (PList (pre ++ tx :: post)) ->
        Forall (fun t => exists outs,
                    getitem_str t "out" = Ok (PList outs) /\
                    Forall lacks_addr outs) pre ->
        getitem_str tx "out" = Ok (PList (opre ++ output :: opost)) ->
        Forall lacks_addr opre ->
        getitem_str output "addr" = Ok a ->
        eq_str a (watch_address self) = true ->
        is_rx_transaction_to_btc_address self net = (Ok true, [])) /\
    (forall txs,
        getitem_str payload "txs" = Ok (PList txs) ->
        Forall (fun t => exists outs,
                    getitem_str t "out" = Ok (PList outs) /\
                    Forall lacks_addr outs) txs ->
        is_rx_transaction_to_btc_address self net = (Ok false, [])).
Proof.
  intros self net r payload Hnet Hok Hbody.
  rewrite (is_rx_on_payload self net r payload Hnet Hok Hbody).
  repeat apply conj.
  - intros net' r' payload' pre tx tx' post opre output opost
           Hnet' Hok' Hbody' Htxs Htxs' Hout Hout' Hlacks.
    rewrite (is_rx_on_payload self net' r' payload' Hnet' Hok' Hbody').
    rewrite (rx_search_txs _ payload _ Htxs),
      (rx_search_txs _ payload' _ Htxs').
    now rewrite (rx_loop_skip _ pre post opre opost tx tx' output
                   Hout Hout' Hlacks).
  - intros pre tx post opre output opost a Htxs Hpre Hout Hopre Ho Ha.
    rewrite (rx_search_txs _ payload _ Htxs).
    rewrite (rx_loop_app_false _ pre (tx :: post)
               (rx_loop_all_lack _ pre Hpre)).
    rewrite (rx_loop_cons _ tx post _ Hout).
    rewrite (out_loop_app_false _ opre (output :: opost)
               (out_loop_all_lack _ opre Hopre)).
    now rewrite (out_loop_match _ output a opost Ho Ha).
  - intros txs Htxs Hall.
    rewrite (rx_search_txs _ payload _ Htxs).
    now rewrite (rx_loop_all_lack _ txs Hall).
Qed.

Lemma C10_incoming_skips_outputs_without_addr_witness :
  let bare := PDict [("value", PInt 4)] in
  let mine := output_of (PStr "W") (PInt 5) in
  let feed outs := feed_of [tx_of [] [bare]; tx_of [] outs] in
  is_rx_transaction_to_btc_address (init "W")
    (always (Response 200 (Some (feed [bare; PNone]))))
  = is_rx_transaction_to_btc_address (init "W")
      (always (Response 200 (Some (feed [PNone])))) /\
  is_rx_transaction_to_btc_address (init "W")
    (always (Response 200 (Some (feed [bare; mine])))) = (Ok true, []) /\
  is_rx_transaction_to_btc_address (init "W")
    (always (Response 200 (Some (feed [bare; bare])))) = (Ok false, []).
Proof.
  intros bare mine feed.
  assert (Hbare : lacks_addr bare) by (now exists [("value", PInt 4)]).
  assert (Hfirst : exists outs,
             getitem_str (tx_of [] [bare]) "out" = Ok (PList outs) /\
             Forall lacks_addr outs).
  { exists [bare]. split; [reflexivity | now constructor]. }
  repeat apply conj.
  - apply (proj1 (C10_incoming_skips_outputs_without_addr (init "W")
                    (always (Response 200 (Some (feed [bare; PNone]))))
                    (Response 200 (Some (feed [bare; PNone])))
                    (feed [bare; PNone]) eq_refl eq_refl eq_refl)
             (always (Response 200 (Some (feed [PNone]))))
             (Response 200 (Some (feed [PNone]))) (feed [PNone])
             [tx_of [] [bare]] (tx_of [] [bare; PNone]) (tx_of [] [PNone])
             [] [] bare [PNone]
             eq_refl eq_refl eq_refl eq_refl eq_refl eq_refl eq_refl Hbare).
  - apply (proj1 (proj2 (C10_incoming_skips_outputs_without_addr (init "W")
                    (always (Response 200 (Some (feed [bare; mine]))))
                    (Response 200 (Some (feed [bare; mine])))
                    (feed [bare; mine]) eq_refl eq_refl eq_refl))
             [tx_of [] [bare]] (tx_of [] [bare; mine]) []
             [bare] mine [] (PStr "W") eq_refl).
    + now constructor.
    + reflexivity.
    + now constructor.
    + reflexivity.
    + reflexivity.
  - apply (proj2 (proj2 (C10_incoming_skips_outputs_without_addr (init "W")
                    (always (Response 200 (Some (feed [bare; bare]))))
                    (Response 200 (Some (feed [bare; bare])))
                    (feed [bare; bare]) eq_refl eq_refl eq_refl))
             [tx_of [] [bare]; tx_of [] [bare; bare]] eq_refl).
    constructor; [exact Hfirst |].
    constructor; [| constructor].
    exists [bare; bare]. split; [reflexivity |].
    now repeat constructor.
Defined.

End UnconfirmedClaims.

(** ** The address history *)

Section History.
Import BtcAddressMonitoring.

Lemma history_tx_valid (tx : pyval) (tr : transfer) (acc : list transfer) :
  valid_transaction tx tr -> history_tx tx acc = Ok (acc ++ [tr]).
Proof.
  destruct tr as [[from_address to_address] amount].
  intros (items & input & inputs & output & outs & -> & Hin & Hout &
          Hfrom & Hto & Hamount & Tfrom & Tto & Tamount).
  destruct output as [| | | | | oitems]; try discriminate.
  unfold history_tx. simpl. rewrite Hin, Hout. simpl.
  rewrite Hfrom. simpl in *.
  destruct (dict_get "addr" oitems) as [v |]; [| discriminate].
  injection Hto as ->.
  destruct (dict_get "value" oitems) as [v |]; [| discriminate].
  injection Hamount as ->. simpl.
  now rewrite Tfrom, Tto, Tamount.
Qed.

Lemma history_tx_missing (tx : pyval) (acc : list transfer) :
  missing_array tx -> history_tx tx acc = Ok acc.
Proof.
  intros (items & -> & [Hin | Hout]); unfold history_tx; simpl.
  - now rewrite Hin.
  - rewrite Hout. now destruct (dict_get "inputs" items).
Qed.

Lemma history_loop_normalized (txs : list pyval) (trs : list transfer) :
  normalized txs trs ->
  forall acc, history_loop txs acc = (Ok tt, acc ++ trs).
Proof.
  induction 1 as [| tx tr txs trs Hv _ IH | tx txs trs Hm _ IH];
    intros acc; simpl.
  - now rewrite app_nil_r.
  - rewrite (history_tx_valid tx tr acc Hv), IH, <- app_assoc. reflexivity.
  - rewrite (history_tx_missing tx acc Hm). apply IH.
Qed.

(** With a successful reply whose ["txs"] is a list, the call is the loop
    over that list. *)
Lemma history_on_txs (self : t) (net : network) (r : response)
    (data : pyval) (txs : list pyval) :
  net (RawAddr (watch_address self) 500) = Some r ->
  response_ok r = true ->
  body r = Some data ->
  getitem_str data "txs" = Ok (PList txs) ->
  get_transactions_from_btc_address self net
  = match history_loop txs (transaction_list self) with
    | (Ok _, l) => (Ok l, with_transaction_list self l)
    | (Raise e, l) => (Raise e, with_transaction_list self l)
    end.
Proof.
  intros Hnet Hok Hbody Htxs.
  unfold get_transactions_from_btc_address, requests_get, response_json.
  cbv zeta. rewrite Hnet, Hok, Hbody.
  destruct data as [| | | | | items]; try discriminate. simpl in *.
  destruct (dict_get "txs" items) as [v |]; [| discriminate].
  injection Htxs as ->. reflexivity.
Qed.

Lemma history_bad_status (self : t) (net : network) (r : response) :
  net (RawAddr (watch_address self) 500) = Some r ->
  response_ok r = false ->
  get_transactions_from_btc_address self net
  = (Ok [], with_transaction_list self []).
Proof.
  intros Hnet Hok.
  unfold get_transactions_from_btc_address, requests_get. cbv zeta.
  now rewrite Hnet, Hok.
Qed.

(** C4, as stated, fails: not every status outside 2xx is a failure for
    [response.ok], which is false on 4xx and 5xx only.  After a successful
    call has put one transfer in the list, a reply with status 300 and a
    JSON object without ["txs"] takes the [if] branch: the list is returned
    as it was, not emptied. *)
Lemma C4_counterexample :
  let page := feed_of [tx_of [input_of (PStr "W") (PInt 9)]
                             [output_of (PStr "Z") (PInt 7)]] in
  let after_success :=
    snd (get_transactions_from_btc_address (init "W")
           (always (Response 200 (Some page)))) in
  let choices := Response 300 (Some (PDict [])) in
  ~ (200 <= status_code choices < 300) /\
  get_transactions_from_btc_address after_success (always choices)
  = (Ok [(PStr "W", PStr "Z", PInt 7)], after_success) /\
  transaction_list
    (snd (get_transactions_from_btc_address after_success (always choices)))
  = [(PStr "W", PStr "Z", PInt 7)].
Proof. simpl. repeat split. lia. Qed.

(** C4 (amended): when the reply to the history request has a status 4xx
    or 5xx ([response.ok] is false),
    [get_transactions_from_btc_address] sets [transaction_list] to the
    empty list and returns it, whatever the list held before. *)
Theorem C4_failed_history_fetch_resets_list :
  forall (self : t) (net : network) (r : response),
    net (RawAddr (watch_address self) 500) = Some r ->
    response_ok r = false ->
    get_transactions_from_btc_address self net
    = (Ok [], with_transaction_list self []) /\
    transaction_list (snd (get_transactions_from_btc_address self net)) = [].
Proof.
  intros self net r Hnet Hok.
  rewrite (history_bad_status self net r Hnet Hok). now split.
Qed.

Lemma C4_failed_history_fetch_resets_list_witness :
  let page := feed_of [tx_of [input_of (PStr "W") (PInt 9)]
                             [output_of (PStr "Z") (PInt 7)]] in
  let after_success :=
    snd (get_transactions_from_btc_address (init "W")
           (always (Response 200 (Some page)))) in
  transaction_list after_success = [(PStr "W", PStr "Z", PInt 7)] /\
  get_transactions_from_btc_address after_success
    (always (Response 500 None))
  = (Ok [], with_transaction_list after_success []).
Proof.
  intros page after_success. split; [reflexivity |].
  apply (C4_failed_history_fetch_resets_list after_success
           (always (Response 500 None)) (Response 500 None));
    reflexivity.
Defined.

(** C8: on a fresh monitor and a successful reply,
    [get_transactions_from_btc_address] returns, for a list of three valid
    transactions, exactly the three transfers made of each transaction's
    first input address and first output address and value; and in
    general, for a list of valid transactions and of transactions without
    the ["inputs"] or the ["out"] key, exactly the transfers of the valid
    ones, in order. *)
Theorem C8_history_of_valid_transactions :
  forall (w : string) (net : network) (r : response) (data : pyval),
    net (RawAddr w 500) = Some r ->
    response_ok r = true ->
    body r = Some data ->
    (forall tx1 tx2 tx3 tr1 tr2 tr3,
        getitem_str data "txs" = Ok (PList [tx1; tx2; tx3]) ->
        valid_transaction tx1 tr1 ->
        valid_transaction tx2 tr2 ->
        valid_transaction tx3 tr3 ->
        fst (get_transactions_from_btc_address (init w) net)
        = Ok [tr1; tr2; tr3]) /\
    (forall txs trs,
        getitem_str data "txs" = Ok (PList txs) ->
        normalized txs trs ->
        get_transactions_from_btc_address (init w) net
        = (Ok trs, with_transaction_list (init w) trs)).
Proof.
  intros w net r data Hnet Hok Hbody.
  assert (Hgen : forall txs trs,
             getitem_str data "txs" = Ok (PList txs) ->
             normalized txs trs ->
             get_transactions_from_btc_address (init w) net
             = (Ok trs, with_transaction_list (init w) trs)).
  { intros txs trs Htxs Hnorm.
    rewrite (history_on_txs (init w) net r data txs Hnet Hok Hbody Htxs).
    now rewrite (history_loop_normalized txs trs Hnorm). }
  split; [| exact Hgen].
  intros tx1 tx2 tx3 tr1 tr2 tr3 Htxs H1 H2 H3.
  rewrite (Hgen [tx1; tx2; tx3] [tr1; tr2; tr3] Htxs); [reflexivity |].
  repeat (apply normalized_valid; trivial). apply normalized_nil.
Qed.

Lemma C8_history_of_valid_transactions_witness :
  let tx a b v :=
    tx_of [input_of (PStr a) (PInt 1); input_of (PStr "other") (PInt 2)]
          [output_of (PStr b) (PInt v); output_of (PStr "change") (PInt 3)] in
  let no_inputs := PDict [("out", PList [output_of (PStr "Z") (PInt 8)])] in
  fst (get_transactions_from_btc_address (init "W")
         (always (Response 200
            (Some (feed_of [tx "A" "B" 5; tx "C" "D" 6; tx "E" "F" 7])))))
  = Ok [(PStr "A", PStr "B", PInt 5); (PStr "C", PStr "D", PInt 6);
        (PStr "E", PStr "F", PInt 7)] /\
  fst (get_transactions_from_btc_address (init "W")
         (always (Response 200
            (Some (feed_of [tx "A" "B" 5; no_inputs; tx "C" "D" 6])))))
  = Ok [(PStr "A", PStr "B", PInt 5); (PStr "C", PStr "D", PInt 6)].
Proof.
  intros tx no_inputs.
  assert (Hvalid : forall a b v,
             truthy (PStr a) = true -> truthy (PStr b) = true ->
             truthy (PInt v) = true ->
             valid_transaction (tx a b v) (PStr a, PStr b, PInt v)).
  { intros a b v Ha Hb Hv.
    exists [("inputs",
             PList [input_of (PStr a) (PInt 1);
                    input_of (PStr "other") (PInt 2)]);
            ("out",
             PList [output_of (PStr b) (PInt v);
                    output_of (PStr "change") (PInt 3)])],
      (input_of (PStr a) (PInt 1)), [input_of (PStr "other") (PInt 2)],
      (output_of (PStr b) (PInt v)), [output_of (PStr "change") (PInt 3)].
    repeat split; trivial. }
  split.
  - apply (proj1 (C8_history_of_valid_transactions "W"
                    (always (Response 200
                       (Some (feed_of [tx "A" "B" 5; tx "C" "D" 6;
                                       tx "E" "F" 7]))))
                    (Response 200
                       (Some (feed_of [tx "A" "B" 5; tx "C" "D" 6;
                                       tx "E" "F" 7])))
                    (feed_of [tx "A" "B" 5; tx "C" "D" 6; tx "E" "F" 7])
                    eq_refl eq_refl eq_refl)
             (tx "A" "B" 5) (tx "C" "D" 6) (tx "E" "F" 7)
             (PStr "A", PStr "B", PInt 5) (PStr "C", PStr "D", PInt 6)
             (PStr "E", PStr "F", PInt 7) eq_refl);
      apply Hvalid; reflexivity.
  - rewrite (proj2 (C8_history_of_valid_transactions "W"
                    (always (Response 200
                       (Some (feed_of [tx "A" "B" 5; no_inputs;
                                       tx "C" "D" 6]))))
                    (Response 200
                       (Some (feed_of [tx "A" "B" 5; no_inputs;
                                       tx "C" "D" 6])))
                    (feed_of [tx "A" "B" 5; no_inputs; tx "C" "D" 6])
                    eq_refl eq_refl eq_refl)
             [tx "A" "B" 5; no_inputs; tx "C" "D" 6]
             [(PStr "A", PStr "B", PInt 5); (PStr "C", PStr "D", PInt 6)]
             eq_refl).
    + reflexivity.
    + apply normalized_valid; [now apply Hvalid |].
      apply normalized_skip.
      * exists [("out", PList [output_of (PStr "Z") (PInt 8)])].
        split; [reflexivity | now left].
      * apply normalized_valid; [now apply Hvalid | apply normalized_nil].
Defined.

End History.

(** ** The block scanner: the final pairing loop *)

Lemma skipn_nth_error {A : Type} (l : list A) (k : nat) (x : A) :
  nth_error l k = Some x -> skipn k l = x :: skipn (S k) l.
Proof.
  revert k. induction l as [| y l IH]; intros [| k] H; try discriminate.
  - now injection H as ->.
  - simpl in H. apply IH in H. exact H.
Qed.

Lemma rows_of_nil_r (senders amounts : list pyval) :
  rows_of senders [] amounts = [].
Proof. now destruct senders. Qed.

Lemma rows_of_length (senders recipients amounts : list pyval) :
  List.length amounts = List.length senders ->
  List.length (rows_of senders recipients amounts)
  = Nat.min (List.length senders) (List.length recipients).
Proof.
  revert recipients amounts.
  induction senders as [| s senders IH]; intros [| r recipients] [| a amounts];
    simpl; intros H; try reflexivity; try discriminate.
  f_equal. apply IH. now injection H.
Qed.

Section Pairing.
Import BtcBlockMonitoring.

Variables senders recipients amounts : list pyval.
Hypothesis amounts_length : List.length amounts = List.length senders.

(** With at least as many recipients as senders the loop runs to its end. *)
Lemma pair_loop_from_ok (n k : nat) (m : list (list pyval)) :
  (k + n = List.length senders)%nat ->
  (List.length senders <= List.length recipients)%nat ->
  pair_loop (map Z.of_nat (seq k n)) (Lists senders recipients amounts) m
  = (Ok tt,
     m ++ rows_of (skipn k senders) (skipn k recipients) (skipn k amounts)).
Proof.
  revert k m. induction n as [| n IH]; intros k m Hk Hle.
  - simpl. rewrite (skipn_all2 senders) by lia. simpl.
    now rewrite app_nil_r.
  - simpl. unfold local_index. rewrite !list_index_nat. simpl.
    destruct (nth_error senders k) as [s |] eqn:Hs;
      [| apply nth_error_None in Hs; lia].
    destruct (nth_error recipients k) as [r |] eqn:Hr;
      [| apply nth_error_None in Hr; lia].
    destruct (nth_error amounts k) as [a |] eqn:Ha;
      [| apply nth_error_None in Ha; lia].
    simpl. rewrite IH by lia.
    rewrite (skipn_nth_error _ _ _ Hs), (skipn_nth_error _ _ _ Hr),
      (skipn_nth_error _ _ _ Ha).
    simpl. now rewrite <- app_assoc.
Qed.

(** With fewer recipients than senders the subscript
    [recipient_addresses[i]] raises at the first index without a
    recipient; the rows built before stay in the matrix. *)
Lemma pair_loop_from_short (n k : nat) (m : list (list pyval)) :
  (k + n = List.length senders)%nat ->
  (k <= List.length recipients < List.length senders)%nat ->
  pair_loop (map Z.of_nat (seq k n)) (Lists senders recipients amounts) m
  = (Raise IndexError,
     m ++ rows_of (skipn k senders) (skipn k recipients) (skipn k amounts)).
Proof.
  revert k m. induction n as [| n IH]; intros k m Hk Hle; [lia |].
  simpl. unfold local_index. rewrite !list_index_nat. simpl.
  destruct (nth_error senders k) as [s |] eqn:Hs;
    [| apply nth_error_None in Hs; lia].
  destruct (nth_error recipients k) as [r |] eqn:Hr.
  - destruct (nth_error amounts k) as [a |] eqn:Ha;
      [| apply nth_error_None in Ha; lia].
    assert (k < List.length recipients)%nat
      by (apply nth_error_Some; congruence).
    simpl. rewrite IH by lia.
    rewrite (skipn_nth_error _ _ _ Hs), (skipn_nth_error _ _ _ Hr),
      (skipn_nth_error _ _ _ Ha).
    simpl. now rewrite <- app_assoc.
  - simpl. apply nth_error_None in Hr.
    rewrite (skipn_all2 recipients) by lia.
    now rewrite rows_of_nil_r, app_nil_r.
Qed.

Lemma pair_loop_ok (m : list (list pyval)) :
  (List.length senders <= List.length recipients)%nat ->
  pair_loop (range 0 (Z.of_nat (List.length senders))) (Lists senders recipients amounts) m
  = (Ok tt, m ++ rows_of senders recipients amounts).
Proof.
  intros Hle. rewrite range_0_seq.
  now rewrite (pair_loop_from_ok (List.length senders) 0 m).
Qed.

Lemma pair_loop_short (m : list (list pyval)) :
  (List.length recipients < List.length senders)%nat ->
  pair_loop (range 0 (Z.of_nat (List.length senders))) (Lists senders recipients amounts) m
  = (Raise IndexError, m ++ rows_of senders recipients amounts).
Proof.
  intros Hlt. rewrite range_0_seq.
  rewrite (pair_loop_from_short (List.length senders) 0 m); trivial. lia.
Qed.

End Pairing.

(** ** The block scanner: the loops that collect the lists *)

Section Collecting.
Import BtcBlockMonitoring.

Variable P : pyval -> pyval -> Prop.
Variable Q : pyval -> Prop.

Lemma inputs_loop_from (inputs : list pyval) :
  Forall (input_from P) inputs ->
  forall acc acc',
    lists_from P Q acc ->
    inputs_loop inputs acc = Ok acc' ->
    lists_from P Q acc'.
Proof.
  induction 1 as [| input inputs Hinput _ IH]; intros acc acc' Hacc Hrun.
  - simpl in Hrun. now injection Hrun as <-.
  - simpl in Hrun.
    destruct (getitem_str input "prev_out") as [prev_out | e] eqn:Hprev;
      [| discriminate].
    simpl in Hrun.
    destruct (getitem_str prev_out "addr") as [s | e] eqn:Hs;
      [| discriminate].
    simpl in Hrun.
    destruct (getitem_str prev_out "value") as [a | e] eqn:Ha;
      [| discriminate].
    simpl in Hrun. apply IH in Hrun; [exact Hrun |].
    destruct Hacc as [Hsenders Hrecipients]. split; simpl.
    + apply Forall2_app; [exact Hsenders |].
      constructor; [| constructor]. now apply (Hinput prev_out).
    + exact Hrecipients.
Qed.

Lemma outputs_loop_from (outs : list pyval) :
  Forall (output_from Q) outs ->
  forall acc acc',
    lists_from P Q acc ->
    outputs_loop outs acc = Ok acc' ->
    lists_from P Q acc'.
Proof.
  induction 1 as [| output outs Houtput _ IH]; intros acc acc' Hacc Hrun.
  - simpl in Hrun. now injection Hrun as <-.
  - simpl in Hrun.
    destruct (getitem_str output "addr") as [r | e] eqn:Hr;
      [| discriminate].
    simpl in Hrun.
    destruct (getitem_str output "value") as [v | e]; [| discriminate].
    simpl in Hrun. apply IH in Hrun; [exact Hrun |].
    destruct Hacc as [Hsenders Hrecipients]. split; simpl.
    + exact Hsenders.
    + apply Forall_app. split; [exact Hrecipients |].
      constructor; [| constructor]. now apply Houtput.
Qed.

Lemma scan_tx_from (tx : pyval) (acc acc' : lists) :
  tx_from P Q tx ->
  lists_from P Q acc ->
  scan_tx tx acc = Ok acc' ->
  lists_from P Q acc'.
Proof.
  unfold tx_from, scan_tx. intros Htx Hacc Hrun.
  destruct (is_coinjoin tx) as [[] | e]; simpl in Hrun; try discriminate.
  - destruct (Htx eq_refl) as [Hins Houts].
    destruct (getitem_str tx "inputs") as [v | e]; [| discriminate].
    simpl in *.
    destruct (iter v) as [inputs | e]; [| discriminate]. simpl in Hrun.
    destruct (inputs_loop inputs acc) as [acc1 | e] eqn:Hloop;
      [| discriminate].
    simpl in Hrun.
    destruct (getitem_str tx "out") as [v' | e]; [| discriminate].
    simpl in *.
    destruct (iter v') as [outs | e]; [| discriminate]. simpl in Hrun.
    apply (outputs_loop_from outs (Houts outs eq_refl) acc1); trivial.
    now apply (inputs_loop_from inputs (Hins inputs eq_refl) acc).
  - now injection Hrun as <-.
Qed.

Lemma txs_loop_from (txs : list pyval) :
  Forall (tx_from P Q) txs ->
  forall acc acc',
    lists_from P Q acc ->
    txs_loop txs acc = Ok acc' ->
    lists_from P Q acc'.
Proof.
  induction 1 as [| tx txs Htx _ IH]; intros acc acc' Hacc Hrun.
  - simpl in Hrun. now injection Hrun as <-.
  - simpl in Hrun.
    destruct (scan_tx tx acc) as [acc1 | e] eqn:Hstep; [| discriminate].
    simpl in Hrun. apply (IH acc1); trivial.
    now apply (scan_tx_from tx acc).
Qed.

Variable net : network.

(** A block is its transactions. *)
Lemma scan_block_transactions (block_num : Z) (acc : lists) :
  scan_block net block_num acc
  = (txs <- block_transactions net block_num ;; txs_loop txs acc).
Proof.
  unfold scan_block, block_transactions.
  destruct (requests_get net (RawBlock block_num)) as [r | e];
    [| reflexivity].
  simpl. destruct (response_ok r); [| reflexivity].
  destruct (response_json r) as [block_data | e]; [| reflexivity]. simpl.
  destruct (getitem_str block_data "tx") as [v | e]; [| reflexivity].
  simpl. now destruct (iter v).
Qed.

Lemma blocks_loop_from (block_nums : list Z) :
  Forall (fun block_num =>
            forall txs, block_transactions net block_num = Ok txs ->
                        Forall (tx_from P Q) txs) block_nums ->
  forall acc acc',
    lists_from P Q acc ->
    blocks_loop net block_nums acc = Ok acc' ->
    lists_from P Q acc'.
Proof.
  induction 1 as [| block_num block_nums Hblock _ IH];
    intros acc acc' Hacc Hrun.
  - simpl in Hrun. now injection Hrun as <-.
  - simpl in Hrun. rewrite scan_block_transactions in Hrun.
    destruct (block_transactions net block_num) as [txs | e];
      [| discriminate].
    simpl in Hrun.
    destruct (txs_loop txs acc) as [acc1 | e] eqn:Hstep; [| discriminate].
    simpl in Hrun. apply (IH acc1); trivial.
    now apply (txs_loop_from txs (Hblock txs eq_refl) acc).
Qed.

Lemma rows_of_from (senders recipients amounts : list pyval) :
  Forall2 P senders amounts ->
  Forall Q recipients ->
  Forall (fun row => exists s r a, row = [s; r; a] /\ P s a /\ Q r)
         (rows_of senders recipients amounts).
Proof.
  intros Hsenders. revert recipients.
  induction Hsenders as [| s a senders amounts Hsa _ IH];
    intros recipients Hrecipients; [constructor |].
  destruct Hrecipients as [| r recipients Hr Hrecipients]; [constructor |].
  simpl. constructor; [| now apply IH].
  now exists s, r, a.
Qed.

End Collecting.

(** ** The block scanner: the whole call *)

Section Scanner.
Import BtcBlockMonitoring.

Variable self : t.
Variable net : network.

(** Senders and amounts are appended together. *)
Lemma blocks_loop_lengths (block_nums : list Z) (ls : lists) :
  blocks_loop net block_nums (Lists [] [] []) = Ok ls ->
  List.length (amounts ls) = List.length (sender_addresses ls).
Proof.
  intros Hrun. symmetry.
  apply (@Forall2_length _ _ (fun _ _ => True)).
  apply (blocks_loop_from (fun _ _ => True) (fun _ => True) net block_nums)
    with (acc := Lists [] [] []) in Hrun.
  - apply Hrun.
  - apply Forall_forall. intros block_num _ txs _.
    apply Forall_forall. intros tx _ _. split; intros l _.
    + apply Forall_forall. now intros input _ prev_out s a _ _ _.
    + apply Forall_forall. now intros output _ r _.
  - split; constructor.
Qed.

(** What the call makes of the lists it collected: the rows of
    [rows_of], and [IndexError] after them when the senders outnumber the
    recipients. *)
Lemma scan_pairing (ls : lists) :
  blocks_loop net (range (start_block self) (end_block self + 1))
    (Lists [] [] []) = Ok ls ->
  let m := matrix self ++
           rows_of (sender_addresses ls) (recipient_addresses ls)
             (amounts ls) in
  get_mixed_btc_transactions_from_btc_blocks self net
  = if (List.length (sender_addresses ls)
        <=? List.length (recipient_addresses ls))%nat
    then (Ok m, with_matrix self m)
    else (Raise IndexError, with_matrix self m).
Proof.
  intros Hrun m. pose proof (blocks_loop_lengths _ ls Hrun) as Hlen.
  unfold get_mixed_btc_transactions_from_btc_blocks. rewrite Hrun.
  destruct ls as [senders recipients amts]. simpl in *.
  destruct (Nat.leb_spec (List.length senders) (List.length recipients))
    as [Hle | Hlt].
  - now rewrite (pair_loop_ok senders recipients amts Hlen (matrix self) Hle).
  - now rewrite (pair_loop_short senders recipients amts Hlen (matrix self)
                   Hlt).
Qed.

Lemma scan_raises (e : exn) :
  blocks_loop net (range (start_block self) (end_block self + 1))
    (Lists [] [] []) = Raise e ->
  get_mixed_btc_transactions_from_btc_blocks self net = (Raise e, self).
Proof.
  intros Hrun. unfold get_mixed_btc_transactions_from_btc_blocks.
  now rewrite Hrun.
Qed.

(** The lists collected over the range come from the blocks of the
    range. *)
Lemma blocks_loop_sources (ls : lists) :
  blocks_loop net (range (start_block self) (end_block self + 1))
    (Lists [] [] []) = Ok ls ->
  lists_from (input_source net self) (output_source net self) ls.
Proof.
  intros Hrun.
  apply (blocks_loop_from (input_source net self) (output_source net self)
           net _) with (acc := Lists [] [] []) in Hrun.
  - exact Hrun.
  - apply Forall_forall. intros block_num Hnum txs Htxs.
    apply Forall_forall. intros tx Htx Hmixed. split.
    + intros inputs Hinputs. apply Forall_forall.
      intros input Hinput prev_out s a Hprev Hs Ha.
      now exists block_num, txs, tx, inputs, input, prev_out.
    + intros outs Houts. apply Forall_forall.
      intros output Houtput r Hr.
      now exists block_num, txs, tx, outs, output.
  - split; constructor.
Qed.

End Scanner.


(** ** Claims about the block scanner *)

Section ScannerClaims.
Import BtcBlockMonitoring.

Lemma scan_single_block (n : Z) (net : network) (r : response)
    (block_data : pyval) (txs : list pyval) :
  net (RawBlock n) = Some r ->
  response_ok r = true ->
  body r = Some block_data ->
  getitem_str block_data "tx" = Ok (PList txs) ->
  blocks_loop net (range n (n + 1)) (Lists [] [] [])
  = txs_loop txs (Lists [] [] []).
Proof.
  intros Hnet Hok Hbody Htx. rewrite range_single. simpl.
  unfold scan_block, requests_get, response_json.
  rewrite Hnet. simpl. rewrite Hok, Hbody. simpl. rewrite Htx. simpl.
  now destruct (txs_loop txs (Lists [] [] [])).
Qed.

(** The classification: more than one input and more than one output. *)
Lemma is_coinjoin_lists (tx : pyval) (inputs outs : list pyval) :
  getitem_str tx "inputs" = Ok (PList inputs) ->
  getitem_str tx "out" = Ok (PList outs) ->
  is_coinjoin tx
  = Ok ((1 <? List.length inputs)%nat && (1 <? List.length outs)%nat).
Proof.
  intros Hin Hout. unfold is_coinjoin. rewrite Hin. simpl.
  destruct (Z.ltb_spec 1 (Z.of_nat (List.length inputs))) as [Hi | Hi];
    destruct (Nat.ltb_spec 1 (List.length inputs)) as [Hi' | Hi']; try lia.
  - rewrite Hout. simpl. f_equal.
    destruct (Z.ltb_spec 1 (Z.of_nat (List.length outs)));
      destruct (Nat.ltb_spec 1 (List.length outs)); trivial; lia.
  - reflexivity.
Qed.

(** C5: a fresh scanner over the range of one block, whose transaction
    list holds one transaction with the inputs [X], [Y] (values [a1], [a2])
    and the outputs [Z], [W], returns exactly the two rows [[X, Z, a1]] and
    [[Y, W, a2]]: senders and recipients paired by position, amounts from
    the inputs.  With one input and two outputs it returns no row.  A
    transaction is taken as a mixing candidate exactly when it has more than
    one input and more than one output. *)
Theorem C5_scan_pairs_a_two_by_two_transaction :
  forall (n : Z) (net : network) (r : response),
    net (RawBlock n) = Some r ->
    response_ok r = true ->
    (forall X Y Z W a1 a2 b1 b2,
        body r = Some (block_of [tx_of [input_of X a1; input_of Y a2]
                                       [output_of Z b1; output_of W b2]]) ->
        fst (get_mixed_btc_transactions_from_btc_blocks (init n n) net)
        = Ok [[X; Z; a1]; [Y; W; a2]]) /\
    (forall X Z W a1 b1 b2,
        body r = Some (block_of [tx_of [input_of X a1]
                                       [output_of Z b1; output_of W b2]]) ->
        fst (get_mixed_btc_transactions_from_btc_blocks (init n n) net)
        = Ok []) /\
    (forall tx inputs outs,
        getitem_str tx "inputs" = Ok (PList inputs) ->
        getitem_str tx "out" = Ok (PList outs) ->
        (is_coinjoin tx = Ok true <->
         (1 < List.length inputs /\ 1 < List.length outs)%nat)).
Proof.
  intros n net r Hnet Hok. repeat apply conj.
  - intros X Y Z W a1 a2 b1 b2 Hbody.
    rewrite (scan_pairing (init n n) net
               (Lists [X; Y] [Z; W] [a1; a2])); [reflexivity |].
    cbn [init start_block end_block].
    now rewrite (scan_single_block n net r _ _ Hnet Hok Hbody eq_refl).
  - intros X Z W a1 b1 b2 Hbody.
    rewrite (scan_pairing (init n n) net (Lists [] [] [])); [reflexivity |].
    cbn [init start_block end_block].
    now rewrite (scan_single_block n net r _ _ Hnet Hok Hbody eq_refl).
  - intros tx inputs outs Hin Hout.
    rewrite (is_coinjoin_lists tx inputs outs Hin Hout). split.
    + intros H. injection H as H. apply andb_prop in H as [Hi Ho].
      split; now apply Nat.ltb_lt.
    + intros [Hi Ho]. apply Nat.ltb_lt in Hi, Ho. now rewrite Hi, Ho.
Qed.

Lemma C5_scan_pairs_a_two_by_two_transaction_witness :
  let mixed :=
    block_of [tx_of [input_of (PStr "X") (PInt 10);
                     input_of (PStr "Y") (PInt 5)]
                    [output_of (PStr "Z") (PInt 14);
                     output_of (PStr "W") (PInt 1)]] in
  let plain :=
    block_of [tx_of [input_of (PStr "X") (PInt 15)]
                    [output_of (PStr "Z") (PInt 14);
                     output_of (PStr "W") (PInt 1)]] in
  fst (get_mixed_btc_transactions_from_btc_blocks (init 100 100)
         (always (Response 200 (Some mixed))))
  = Ok [[PStr "X"; PStr "Z"; PInt 10]; [PStr "Y"; PStr "W"; PInt 5]] /\
  fst (get_mixed_btc_transactions_from_btc_blocks (init 100 100)
         (always (Response 200 (Some plain))))
  = Ok [].
Proof.
  intros mixed plain. split.
  - apply (proj1 (C5_scan_pairs_a_two_by_two_transaction 100
                    (always (Response 200 (Some mixed)))
                    (Response 200 (Some mixed)) eq_refl eq_refl)
             (PStr "X") (PStr "Y") (PStr "Z") (PStr "W")
             (PInt 10) (PInt 5) (PInt 14) (PInt 1) eq_refl).
  - apply (proj1 (proj2 (C5_scan_pairs_a_two_by_two_transaction 100
                    (always (Response 200 (Some plain)))
                    (Response 200 (Some plain)) eq_refl eq_refl))
             (PStr "X") (PStr "Z") (PStr "W")
             (PInt 15) (PInt 14) (PInt 1) eq_refl).
Defined.

(** C2: the final loop runs over the indices of the sender list and
    subscripts the recipient list with each of them.  One block with one
    transaction of three inputs and two outputs: the call appends the two
    rows that have a recipient and then raises [IndexError]; it returns no
    list.  With two inputs and three outputs it returns two rows, the
    minimum of the two lengths. *)
Theorem C2_pairing_raises_when_senders_outnumber_recipients :
  let three_in :=
    block_of [tx_of [input_of (PStr "X") (PInt 10);
                     input_of (PStr "Y") (PInt 5);
                     input_of (PStr "V") (PInt 2)]
                    [output_of (PStr "Z") (PInt 14);
                     output_of (PStr "W") (PInt 3)]] in
  let three_out :=
    block_of [tx_of [input_of (PStr "X") (PInt 10);
                     input_of (PStr "Y") (PInt 5)]
                    [output_of (PStr "Z") (PInt 9);
                     output_of (PStr "W") (PInt 3);
                     output_of (PStr "U") (PInt 3)]] in
  get_mixed_btc_transactions_from_btc_blocks (init 100 100)
    (always (Response 200 (Some three_in)))
  = (Raise IndexError,
     with_matrix (init 100 100)
       [[PStr "X"; PStr "Z"; PInt 10]; [PStr "Y"; PStr "W"; PInt 5]]) /\
  fst (get_mixed_btc_transactions_from_btc_blocks (init 100 100)
         (always (Response 200 (Some three_out))))
  = Ok [[PStr "X"; PStr "Z"; PInt 10]; [PStr "Y"; PStr "W"; PInt 5]].
Proof. split; reflexivity. Qed.

End ScannerClaims.


(** ** What the emitted rows hold *)

Section HistoryInvariant.
Import BtcAddressMonitoring.

(** One transaction leaves the list as it is or appends one complete
    transfer. *)
Lemma history_tx_cases (tx : pyval) (acc acc' : list transfer) :
  history_tx tx acc = Ok acc' ->
  acc' = acc \/ exists tr, complete_transfer tr /\ acc' = acc ++ [tr].
Proof.
  unfold history_tx. intros H.
  repeat match type of H with
         | bind ?m _ = _ => destruct m eqn:?; simpl in H; try discriminate
         | (if ?b then _ else _) = _ =>
             destruct b eqn:?; simpl in H; try discriminate
         end.
  - injection H as <-. right.
    match goal with
    | Hc : (truthy ?f && truthy ?t && truthy ?a)%bool = true |- _ =>
        exists (f, t, a); apply andb_prop in Hc as [Hc ?];
        apply andb_prop in Hc as [? ?]
    end.
    now repeat split.
  - injection H as <-. now left.
  - injection H as <-. now left.
Qed.

Lemma history_loop_complete (txs : list pyval) :
  forall acc,
    Forall complete_transfer acc ->
    Forall complete_transfer (snd (history_loop txs acc)).
Proof.
  induction txs as [| tx txs IH]; intros acc Hacc; simpl; [exact Hacc |].
  destruct (history_tx tx acc) as [acc' | e] eqn:Hstep; [| exact Hacc].
  apply IH.
  destruct (history_tx_cases tx acc acc' Hstep) as [-> | (tr & Htr & ->)].
  - exact Hacc.
  - apply Forall_app. split; [exact Hacc | now constructor].
Qed.

(** One call keeps the list complete, and so is the list it returns. *)
Lemma history_call_complete (self : t) (net : network) :
  Forall complete_transfer (transaction_list self) ->
  Forall complete_transfer
    (transaction_list (snd (get_transactions_from_btc_address self net))) /\
  (forall l, fst (get_transactions_from_btc_address self net) = Ok l ->
             Forall complete_transfer l).
Proof.
  intros Hself. unfold get_transactions_from_btc_address. cbv zeta.
  destruct (requests_get net _) as [r | e];
    [| split; [exact Hself | discriminate]].
  destruct (response_ok r).
  - destruct (response_json r) as [data | e];
      [| split; [exact Hself | discriminate]].
    destruct (contains "txs" data) as [[] | e].
    + destruct (txs <- getitem_str data "txs" ;; iter txs) as [txs | e];
        [| split; [exact Hself | discriminate]].
      pose proof (history_loop_complete txs _ Hself) as Hloop.
      destruct (history_loop txs (transaction_list self)) as [[u | e] l];
        simpl in *.
      * split; [exact Hloop |]. intros l' H. now injection H as <-.
      * split; [exact Hloop | discriminate].
    + split; [exact Hself |]. simpl. intros l H. now injection H as <-.
    + split; [exact Hself | discriminate].
  - simpl. split; [constructor |]. intros l H. injection H as <-. constructor.
Qed.

Lemma after_history_calls_complete (nets : list network) :
  forall self,
    Forall complete_transfer (transaction_list self) ->
    Forall complete_transfer
      (transaction_list (after_history_calls nets self)).
Proof.
  induction nets as [| net nets IH]; intros self Hself; [exact Hself |].
  simpl. apply IH. now apply history_call_complete.
Qed.

End HistoryInvariant.

(** C3, as stated, fails for the scanner, which appends what the block
    holds without looking at it: inputs of value 0 give rows with a zero
    amount, and an empty address is passed on as it is. *)
Lemma C3_counterexample :
  let block :=
    block_of [tx_of [input_of (PStr "X") (PInt 0);
                     input_of (PStr "") (PInt 0)]
                    [output_of (PStr "Z") (PInt 0);
                     output_of (PStr "W") (PInt 0)]] in
  fst (BtcBlockMonitoring.get_mixed_btc_transactions_from_btc_blocks
         (BtcBlockMonitoring.init 100 100)
         (always (Response 200 (Some block))))
  = Ok [[PStr "X"; PStr "Z"; PInt 0]; [PStr ""; PStr "W"; PInt 0]] /\
  truthy (PInt 0) = false /\
  truthy (PStr "") = false.
Proof. repeat split. Qed.

(** C3 (amended): every transfer in the list of
    [get_transactions_from_btc_address], after any sequence of calls on a
    fresh monitor, and every transfer of a list it returns, has a sender
    address, a recipient address and an amount that are present and not
    empty or zero.  Every row a call of
    [get_mixed_btc_transactions_from_btc_blocks] adds to the matrix it
    returns is a triple of the address and the value found under
    ["prev_out"] of one input and the address found in one output of
    transactions with several inputs and outputs in blocks of the range;
    these values are stored as found. *)
Theorem C3_emitted_rows :
  (forall (w : string) (nets : list network),
      Forall complete_transfer
        (BtcAddressMonitoring.transaction_list
           (after_history_calls nets (BtcAddressMonitoring.init w))) /\
      (forall net l,
          fst (BtcAddressMonitoring.get_transactions_from_btc_address
                 (after_history_calls nets (BtcAddressMonitoring.init w)) net)
          = Ok l ->
          Forall complete_transfer l)) /\
  (forall (self : BtcBlockMonitoring.t) (net : network) rows,
      fst (BtcBlockMonitoring.get_mixed_btc_transactions_from_btc_blocks
             self net) = Ok rows ->
      exists new,
        rows = BtcBlockMonitoring.matrix self ++ new /\
        Forall (fun row => exists s r a,
                    row = [s; r; a] /\
                    input_source net self s a /\
                    output_source net self r) new).
Proof.
  split.
  - intros w nets.
    assert (Hlist : Forall complete_transfer
                      (BtcAddressMonitoring.transaction_list
                         (after_history_calls nets
                            (BtcAddressMonitoring.init w)))).
    { apply after_history_calls_complete. constructor. }
    split; [exact Hlist |].
    intros net. now apply history_call_complete.
  - intros self net rows Hrows.
    destruct (BtcBlockMonitoring.blocks_loop net
                (range (BtcBlockMonitoring.start_block self)
                       (BtcBlockMonitoring.end_block self + 1))
                (BtcBlockMonitoring.Lists [] [] [])) as [ls | e] eqn:Hrun.
    + rewrite (scan_pairing self net ls Hrun) in Hrows.
      destruct (_ <=? _)%nat; simpl in Hrows; [| discriminate].
      injection Hrows as <-.
      destruct (blocks_loop_sources self net ls Hrun) as [Hsenders Hrecips].
      eexists. split; [reflexivity |].
      now apply rows_of_from.
    + rewrite (scan_raises self net e Hrun) in Hrows. discriminate.
Qed.

Lemma C3_emitted_rows_witness :
  let page :=
    feed_of [tx_of [input_of (PStr "A") (PInt 1)]
                   [output_of (PStr "B") (PInt 7)];
             tx_of [input_of (PStr "A") (PInt 1)]
                   [output_of (PStr "B") (PInt 0)]] in
  let block :=
    block_of [tx_of [input_of (PStr "X") (PInt 10);
                     input_of (PStr "Y") (PInt 5)]
                    [output_of (PStr "Z") (PInt 14);
                     output_of (PStr "W") (PInt 1)]] in
  Forall complete_transfer
    [(PStr "A", PStr "B", PInt 7); (PStr "A", PStr "B", PInt 7)] /\
  exists new,
    [[PStr "X"; PStr "Z"; PInt 10]; [PStr "Y"; PStr "W"; PInt 5]]
    = [] ++ new /\
    Forall (fun row => exists s r a,
                row = [s; r; a] /\
                input_source (always (Response 200 (Some block)))
                  (BtcBlockMonitoring.init 100 100) s a /\
                output_source (always (Response 200 (Some block)))
                  (BtcBlockMonitoring.init 100 100) r) new.
Proof.
  intros page block. split.
  - apply (proj2 (proj1 C3_emitted_rows "W"
                    [always (Response 200 (Some page))])
             (always (Response 200 (Some page)))
             [(PStr "A", PStr "B", PInt 7); (PStr "A", PStr "B", PInt 7)]
             eq_refl).
  - apply (proj2 C3_emitted_rows (BtcBlockMonitoring.init 100 100)
             (always (Response 200 (Some block)))
             [[PStr "X"; PStr "Z"; PInt 10]; [PStr "Y"; PStr "W"; PInt 5]]
             eq_refl).
Defined.

(** ** Which faults are handled *)

Section Faults.

Create HintDb faults.

Lemma getitem_str_fault (v : pyval) (k : string) (e : exn) :
  getitem_str v k = Raise e -> lookup_fault e.
Proof.
  unfold lookup_fault. destruct v; simpl; try (intros [= <-]; auto).
  destruct (dict_get k items); intros [= <-]; auto.
Qed.

Lemma getitem_int_fault (v : pyval) (i : Z) (e : exn) :
  getitem_int v i = Raise e -> lookup_fault e.
Proof.
  unfold lookup_fault. destruct v; simpl; try (intros [= <-]; auto).
  - destruct (list_index (chars s) i); intros [= <-]; auto.
  - destruct (list_index l i); intros [= <-]; auto.
Qed.

Lemma iter_fault (v : pyval) (e : exn) : iter v = Raise e -> lookup_fault e.
Proof.
  unfold lookup_fault. destruct v; simpl; intros [= <-]; auto.
Qed.

Lemma contains_fault (k : string) (v : pyval) (e : exn) :
  contains k v = Raise e -> lookup_fault e.
Proof.
  unfold lookup_fault. destruct v; simpl; intros [= <-]; auto.
Qed.

#[local] Hint Resolve getitem_str_fault getitem_int_fault iter_fault
  contains_fault : faults.















End Faults.


(** * Further properties *)

(** ** The boolean operations *)

Section BooleanFurther.
Import BtcAddressMonitoring.

Lemma eq_str_true (a : pyval) (w : string) :
  eq_str a w = true -> a = PStr w.
Proof.
  destruct a; simpl; try discriminate.
  intros H. apply String.eqb_eq in H. now subst.
Qed.



Lemma tx_loop_true (w : string) (txs : list pyval) :
  tx_loop w txs = Ok true ->
  exists tx, In tx txs /\ first_input_addr tx = Ok (PStr w).
Proof.
  induction txs as [| tx txs IH]; simpl; intros H; [discriminate |].
  destruct (first_input_addr tx) as [a | e] eqn:Ha; simpl in H;
    [| discriminate].
  destruct (eq_str a w) eqn:Heq.
  - exists tx. apply eq_str_true in Heq. subst. auto.
  - destruct (IH H) as (tx' & Hin & Htx'). exists tx'. auto.
Qed.

Lemma out_loop_true (w : string) (outs : list pyval) :
  out_loop w outs = Ok true ->
  exists o, In o outs /\ getitem_str o "addr" = Ok (PStr w).
Proof.
  induction outs as [| o outs IH]; simpl; intros H; [discriminate |].
  destruct (contains "addr" o) as [[] | e]; simpl in H; try discriminate.
  - destruct (getitem_str o "addr") as [a | e] eqn:Ha; simpl in H;
      [| discriminate].
    destruct (eq_str a w) eqn:Heq.
    + exists o. apply eq_str_true in Heq. subst. auto.
    + destruct (IH H) as (o' & Hin & Ho'). exists o'. auto.
  - destruct (IH H) as (o' & Hin & Ho'). exists o'. auto.
Qed.

Lemma rx_loop_true (w : string) (txs : list pyval) :
  rx_loop w txs = Ok true ->
  exists tx out outs o,
    In tx txs /\ getitem_str tx "out" = Ok out /\ iter out = Ok outs /\
    In o outs /\ getitem_str o "addr" = Ok (PStr w).
Proof.
  induction txs as [| tx txs IH]; simpl; intros H; [discriminate |].
  destruct (getitem_str tx "out") as [out | e] eqn:Hout; simpl in H;
    [| discriminate].
  destruct (iter out) as [outs | e] eqn:Houts; simpl in H; [| discriminate].
  destruct (out_loop w outs) as [[] | e] eqn:Hloop; simpl in H;
    try discriminate.
  - destruct (out_loop_true w outs Hloop) as (o & Hin & Ho).
    exists tx, out, outs, o. auto.
  - destruct (IH H) as (tx' & out' & outs' & o & Hin & H1 & H2 & H3 & H4).
    exists tx', out', outs', o. auto.
Qed.

(** What a [True] of the third [try] means for the reply. *)
Lemma boolean_true_reply (net : network)
    (search : pyval -> result bool) :
  fst (try_except (fetch_unconfirmed net)
         [RequestException; ValueError] RetrieveFailed
         (fun response =>
            try_except (response_json response) [ValueError] ParseFailed
              (fun unconfirmed_transactions =>
                 try_except (search unconfirmed_transactions)
                   [KeyError_class; IndexError_class] SchemaFailed
                   (fun b => (Ok b, []))))) = Ok true ->
  exists r payload,
    net UnconfirmedTransactions = Some r /\
    response_ok r = true /\
    body r = Some payload /\
    search payload = Ok true.
Proof.
  unfold fetch_unconfirmed, requests_get, response_json, response_ok,
    raise_for_status.
  destruct (net UnconfirmedTransactions) as [r |]; simpl; [| discriminate].
  destruct ((400 <=? status_code r) && (status_code r <? 600)) eqn:Hstatus;
    simpl; [discriminate |].
  destruct (body r) as [payload |] eqn:Hbody; simpl; [| discriminate].
  destruct (search payload) as [[] | e] eqn:Hs; simpl.
  - intros _. exists r, payload. rewrite Hstatus. auto.
  - discriminate.
  - destruct e; simpl; discriminate.
Qed.

(** X2: [is_tx_transaction_from_btc_address] returns [True] only when the
    feed request was answered with a status that is not 4xx or 5xx and a
    JSON body whose ["txs"] holds a transaction whose first input has the
    watched address under [prev_out.addr]. *)
Theorem X2_outgoing_true_is_a_match :
  forall (self : t) (net : network),
    fst (is_tx_transaction_from_btc_address self net) = Ok true ->
    exists r payload txs_value txs tx,
      net UnconfirmedTransactions = Some r /\
      response_ok r = true /\
      body r = Some payload /\
      getitem_str payload "txs" = Ok txs_value /\
      iter txs_value = Ok txs /\
      In tx txs /\
      first_input_addr tx = Ok (PStr (watch_address self)).
Proof.
  intros self net H.
  destruct (boolean_true_reply net (tx_search (watch_address self)) H)
    as (r & payload & Hnet & Hok & Hbody & Hsearch).
  unfold tx_search in Hsearch.
  destruct (getitem_str payload "txs") as [v | e] eqn:Hv; [| discriminate].
  simpl in Hsearch.
  destruct (iter v) as [txs | e] eqn:Htxs; [| discriminate].
  simpl in Hsearch.
  destruct (tx_loop_true _ txs Hsearch) as (tx & Hin & Htx).
  exists r, payload, v, txs, tx. auto 10.
Qed.

Lemma X2_outgoing_true_is_a_match_witness :
  let hit := tx_of [input_of (PStr "W") (PInt 1)] [] in
  let feed := feed_of [tx_of [input_of (PStr "A") (PInt 2)] []; hit] in
  exists r payload txs_value txs tx,
    always (Response 200 (Some feed)) UnconfirmedTransactions = Some r /\
    response_ok r = true /\
    body r = Some payload /\
    getitem_str payload "txs" = Ok txs_value /\
    iter txs_value = Ok txs /\
    In tx txs /\
    first_input_addr tx = Ok (PStr "W").
Proof.
  intros hit feed.
  apply (X2_outgoing_true_is_a_match (init "W")
           (always (Response 200 (Some feed))) eq_refl).
Defined.

(** X3: [is_rx_transaction_to_btc_address] returns [True] only when the
    feed request was answered with a status that is not 4xx or 5xx and a
    JSON body whose ["txs"] holds a transaction with an output whose
    ["addr"] is the watched address. *)
Theorem X3_incoming_true_is_a_match :
  forall (self : t) (net : network),
    fst (is_rx_transaction_to_btc_address self net) = Ok true ->
    exists r payload txs_value txs tx out outs output,
      net UnconfirmedTransactions = Some r /\
      response_ok r = true /\
      body r = Some payload /\
      getitem_str payload "txs" = Ok txs_value /\
      iter txs_value = Ok txs /\
      In tx txs /\
      getitem_str tx "out" = Ok out /\
      iter out = Ok outs /\
      In output outs /\
      getitem_str output "addr" = Ok (PStr (watch_address self)).
Proof.
  intros self net H.
  destruct (boolean_true_reply net (rx_search (watch_address self)) H)
    as (r & payload & Hnet & Hok & Hbody & Hsearch).
  unfold rx_search in Hsearch.
  destruct (getitem_str payload "txs") as [v | e] eqn:Hv; [| discriminate].
  simpl in Hsearch.
  destruct (iter v) as [txs | e] eqn:Htxs; [| discriminate].
  simpl in Hsearch.
  destruct (rx_loop_true _ txs Hsearch)
    as (tx & out & outs & o & Hin & Hout & Houts & Hino & Ho).
  exists r, payload, v, txs, tx, out, outs, o. auto 12.
Qed.

Lemma X3_incoming_true_is_a_match_witness :
  let hit := tx_of [] [PDict [("value", PInt 4)]; output_of (PStr "W") (PInt 5)] in
  let feed := feed_of [tx_of [] [output_of (PStr "B") (PInt 2)]; hit] in
  exists r payload txs_value txs tx out outs output,
    always (Response 200 (Some feed)) UnconfirmedTransactions = Some r /\
    response_ok r = true /\
    body r = Some payload /\
    getitem_str payload "txs" = Ok txs_value /\
    iter txs_value = Ok txs /\
    In tx txs /\
    getitem_str tx "out" = Ok out /\
    iter out = Ok outs /\
    In output outs /\
    getitem_str output "addr" = Ok (PStr "W").
Proof.
  intros hit feed.
  apply (X3_incoming_true_is_a_match (init "W")
           (always (Response 200 (Some feed))) eq_refl).
Defined.

Lemma tx_loop_raise (w : string) (pre post : list pyval) (tx : pyval)
    (e : exn) :
  Forall (fun t => exists a, first_input_addr t = Ok a /\
                             eq_str a w = false) pre ->
  first_input_addr tx = Raise e ->
  tx_loop w (pre ++ tx :: post) = Raise e.
Proof.
  intros Hpre Htx. induction Hpre as [| t pre (a & Ha & Hne) _ IH]; simpl.
  - now rewrite Htx.
  - rewrite Ha. simpl. now rewrite Hne.
Qed.

(** X4: in [is_tx_transaction_from_btc_address] a transaction whose first
    input address cannot be read, because a key or the first input is
    missing, ends the check: when no transaction before it matched, the
    operation prints the diagnostic and returns [False], and the
    transactions after it, matching or not, are never looked at. *)
Theorem X4_outgoing_missing_field_ends_the_check :
  forall (self : t) (net : network) (r : response) (payload : pyval)
         (pre post : list pyval) (tx : pyval) (e : exn),
    net UnconfirmedTransactions = Some r ->
    response_ok r = true ->
    body r = Some payload ->
    getitem_str payload "txs" = Ok (PList (pre ++ tx :: post)) ->
    Forall (fun t => exists a, first_input_addr t = Ok a /\
                               eq_str a (watch_address self) = false) pre ->
    first_input_addr tx = Raise e ->
    e = KeyError \/ e = IndexError ->
    is_tx_transaction_from_btc_address self net
    = (Ok false, [SchemaFailed e]).
Proof.
  intros self net r payload pre post tx e Hnet Hok Hbody Htxs Hpre Htx He.
  rewrite (is_tx_on_payload self net r payload Hnet Hok Hbody).
  rewrite (tx_search_txs _ payload _ Htxs).
  rewrite (tx_loop_raise _ pre post tx e Hpre Htx), try_schema_raise.
  now destruct He as [-> | ->].
Qed.

Lemma X4_outgoing_missing_field_ends_the_check_witness :
  let other := tx_of [input_of (PStr "A") (PInt 2)] [] in
  let no_prev_out := PDict [("inputs", PList [PDict []])] in
  let hit := tx_of [input_of (PStr "W") (PInt 1)] [] in
  is_tx_transaction_from_btc_address (init "W")
    (always (Response 200 (Some (feed_of [other; no_prev_out; hit]))))
  = (Ok false, [SchemaFailed KeyError]).
Proof.
  intros other no_prev_out hit.
  apply (X4_outgoing_missing_field_ends_the_check (init "W")
           (always (Response 200 (Some (feed_of [other; no_prev_out; hit]))))
           (Response 200 (Some (feed_of [other; no_prev_out; hit])))
           (feed_of [other; no_prev_out; hit])
           [other] [hit] no_prev_out KeyError
           eq_refl eq_refl eq_refl eq_refl).
  - constructor; [| constructor]. exists (PStr "A"). now split.
  - reflexivity.
  - now left.
Defined.

Lemma out_loop_other (w : string) (outs : list pyval) :
  Forall (other_output w) outs -> out_loop w outs = Ok false.
Proof.
  induction 1 as [| o outs [Hshape Hne] _ IH]; [reflexivity |].
  unfold feed_output in Hshape.
  destruct o as [| | | | | items]; try discriminate. simpl in *.
  destruct (dict_get "addr" items) as [[| | | s | |] |];
    try discriminate; simpl; [| exact IH].
  destruct (String.eqb_spec s w) as [-> | _]; [now elim Hne | exact IH].
Qed.

Lemma rx_loop_raise_missing_out (w : string) (pre post : list pyval)
    (tx : pyval) :
  Forall (fun t => exists outs,
              getitem_str t "out" = Ok (PList outs) /\
              Forall (other_output w) outs) pre ->
  getitem_str tx "out" = Raise KeyError ->
  rx_loop w (pre ++ tx :: post) = Raise KeyError.
Proof.
  intros Hpre Htx.
  induction Hpre as [| t pre (outs & Hout & Houts) _ IH].
  - simpl. now rewrite Htx.
  - rewrite <- app_comm_cons, (rx_loop_cons w t _ outs Hout).
    now rewrite (out_loop_other w outs Houts).
Qed.

(** X5: in [is_rx_transaction_to_btc_address] a transaction without the
    ["out"] key ends the check: when no output of the transactions before
    it holds the watched address, the operation prints the diagnostic for
    [KeyError] and returns [False], and the transactions after it are
    never looked at. *)
Theorem X5_incoming_missing_out_ends_the_check :
  forall (self : t) (net : network) (r : response) (payload : pyval)
         (pre post : list pyval) (items : list (string * pyval)),
    net UnconfirmedTransactions = Some r ->
    response_ok r = true ->
    body r = Some payload ->
    getitem_str payload "txs" = Ok (PList (pre ++ PDict items :: post)) ->
    Forall (fun t => exists outs,
                getitem_str t "out" = Ok (PList outs) /\
                Forall (other_output (watch_address self)) outs) pre ->
    dict_get "out" items = None ->
    is_rx_transaction_to_btc_address self net
    = (Ok false, [SchemaFailed KeyError]).
Proof.
  intros self net r payload pre post items Hnet Hok Hbody Htxs Hpre Hnone.
  rewrite (is_rx_on_payload self net r payload Hnet Hok Hbody).
  rewrite (rx_search_txs _ payload _ Htxs).
  rewrite (rx_loop_raise_missing_out _ pre post (PDict items) Hpre);
    [reflexivity |].
  simpl. now rewrite Hnone.
Qed.

Lemma X5_incoming_missing_out_ends_the_check_witness :
  let other := tx_of [] [output_of (PStr "B") (PInt 2);
                         PDict [("value", PInt 3)]] in
  let hit := tx_of [] [output_of (PStr "W") (PInt 1)] in
  is_rx_transaction_to_btc_address (init "W")
    (always (Response 200 (Some (feed_of [other; PDict []; hit]))))
  = (Ok false, [SchemaFailed KeyError]).
Proof.
  intros other hit.
  apply (X5_incoming_missing_out_ends_the_check (init "W")
           (always (Response 200 (Some (feed_of [other; PDict []; hit]))))
           (Response 200 (Some (feed_of [other; PDict []; hit])))
           (feed_of [other; PDict []; hit])
           [other] [hit] []
           eq_refl eq_refl eq_refl eq_refl).
  - constructor; [| constructor].
    exists [output_of (PStr "B") (PInt 2); PDict [("value", PInt 3)]].
    split; [reflexivity |].
    repeat constructor; discriminate.
  - reflexivity.
Defined.

Lemma tx_loop_same_first_inputs (w : string) (txs txs' : list pyval) :
  Forall2 (fun t t' =>
             (inputs <- getitem_str t "inputs" ;; getitem_int inputs 0)
             = (inputs <- getitem_str t' "inputs" ;; getitem_int inputs 0))
          txs txs' ->
  tx_loop w txs = tx_loop w txs'.
Proof.
  induction 1 as [| t t' txs txs' Hsame _ IH]; [reflexivity |].
  simpl. rewrite IH.
  assert (Hfirst : first_input_addr t = first_input_addr t').
  { unfold first_input_addr.
    destruct (getitem_str t "inputs") as [v | e];
      destruct (getitem_str t' "inputs") as [v' | e']; simpl in *.
    - now rewrite Hsame.
    - now rewrite Hsame.
    - now rewrite <- Hsame.
    - congruence. }
  now rewrite Hfirst.
Qed.

Lemma rx_loop_same_outs (w : string) (txs txs' : list pyval) :
  Forall2 (fun t t' => getitem_str t "out" = getitem_str t' "out")
          txs txs' ->
  rx_loop w txs = rx_loop w txs'.
Proof.
  induction 1 as [| t t' txs txs' Hsame _ IH]; [reflexivity |].
  simpl. now rewrite IH, Hsame.
Qed.

(** X6: [is_tx_transaction_from_btc_address] reads nothing of a
    transaction but its first input, and
    [is_rx_transaction_to_btc_address] nothing but its ["out"] value: two
    feeds whose transactions agree, one by one, on that part give the same
    result and the same diagnostics. *)
Theorem X6_boolean_operations_read_one_field :
  forall (self : t) (net net' : network) (r r' : response)
         (payload payload' : pyval) (txs txs' : list pyval),
    net UnconfirmedTransactions = Some r ->
    net' UnconfirmedTransactions = Some r' ->
    response_ok r = true ->
    response_ok r' = true ->
    body r = Some payload ->
    body r' = Some payload' ->
    getitem_str payload "txs" = Ok (PList txs) ->
    getitem_str payload' "txs" = Ok (PList txs') ->
    (Forall2 (fun t t' =>
                (inputs <- getitem_str t "inputs" ;; getitem_int inputs 0)
                = (inputs <- getitem_str t' "inputs" ;; getitem_int inputs 0))
             txs txs' ->
     is_tx_transaction_from_btc_address self net
     = is_tx_transaction_from_btc_address self net') /\
    (Forall2 (fun t t' => getitem_str t "out" = getitem_str t' "out")
             txs txs' ->
     is_rx_transaction_to_btc_address self net
     = is_rx_transaction_to_btc_address self net').
Proof.
  intros self net net' r r' payload payload' txs txs'
         Hnet Hnet' Hok Hok' Hbody Hbody' Htxs Htxs'.
  rewrite (is_tx_on_payload self net r payload Hnet Hok Hbody),
    (is_tx_on_payload self net' r' payload' Hnet' Hok' Hbody'),
    (is_rx_on_payload self net r payload Hnet Hok Hbody),
    (is_rx_on_payload self net' r' payload' Hnet' Hok' Hbody').
  rewrite (tx_search_txs _ payload _ Htxs), (tx_search_txs _ payload' _ Htxs'),
    (rx_search_txs _ payload _ Htxs), (rx_search_txs _ payload' _ Htxs').
  split; intros Hsame.
  - now rewrite (tx_loop_same_first_inputs _ txs txs' Hsame).
  - now rewrite (rx_loop_same_outs _ txs txs' Hsame).
Qed.

Lemma X6_boolean_operations_read_one_field_witness :
  let first := input_of (PStr "A") (PInt 2) in
  let second := input_of (PStr "W") (PInt 1) in
  let outs := [output_of (PStr "B") (PInt 3)] in
  is_tx_transaction_from_btc_address (init "W")
    (always (Response 200 (Some (feed_of [tx_of [first; second] outs]))))
  = is_tx_transaction_from_btc_address (init "W")
      (always (Response 200 (Some (feed_of [tx_of [first] []])))) /\
  is_rx_transaction_to_btc_address (init "W")
    (always (Response 200 (Some (feed_of [tx_of [first; second] outs]))))
  = is_rx_transaction_to_btc_address (init "W")
      (always (Response 200 (Some (feed_of [tx_of [] outs])))).
Proof.
  intros first second outs. split.
  - apply (proj1 (X6_boolean_operations_read_one_field (init "W")
                    (always (Response 200
                       (Some (feed_of [tx_of [first; second] outs]))))
                    (always (Response 200 (Some (feed_of [tx_of [first] []]))))
                    (Response 200 (Some (feed_of [tx_of [first; second] outs])))
                    (Response 200 (Some (feed_of [tx_of [first] []])))
                    (feed_of [tx_of [first; second] outs])
                    (feed_of [tx_of [first] []])
                    [tx_of [first; second] outs] [tx_of [first] []]
                    eq_refl eq_refl eq_refl eq_refl eq_refl eq_refl
                    eq_refl eq_refl)).
    constructor; [reflexivity | constructor].
  - apply (proj2 (X6_boolean_operations_read_one_field (init "W")
                    (always (Response 200
                       (Some (feed_of [tx_of [first; second] outs]))))
                    (always (Response 200 (Some (feed_of [tx_of [] outs]))))
                    (Response 200 (Some (feed_of [tx_of [first; second] outs])))
                    (Response 200 (Some (feed_of [tx_of [] outs])))
                    (feed_of [tx_of [first; second] outs])
                    (feed_of [tx_of [] outs])
                    [tx_of [first; second] outs] [tx_of [] outs]
                    eq_refl eq_refl eq_refl eq_refl eq_refl eq_refl
                    eq_refl eq_refl)).
    constructor; [reflexivity | constructor].
Defined.

End BooleanFurther.

(** ** The address history *)

Section HistoryFurther.
Import BtcAddressMonitoring.

Lemma history_loop_app (pre : list pyval) (trs : list transfer) :
  normalized pre trs ->
  forall rest acc,
    history_loop (pre ++ rest) acc = history_loop rest (acc ++ trs).
Proof.
  induction 1 as [| tx tr txs trs Hv _ IH | tx txs trs Hm _ IH];
    intros rest acc; simpl.
  - now rewrite app_nil_r.
  - rewrite (history_tx_valid tx tr acc Hv), IH, <- app_assoc. reflexivity.
  - rewrite (history_tx_missing tx acc Hm). apply IH.
Qed.



Lemma history_loop_grows (txs : list pyval) :
  forall acc,
    exists new,
      snd (history_loop txs acc) = acc ++ new /\
      Forall complete_transfer new.
Proof.
  induction txs as [| tx txs IH]; intros acc; simpl.
  - exists []. now rewrite app_nil_r.
  - destruct (history_tx tx acc) as [acc' | e] eqn:Hstep.
    + destruct (IH acc') as (new & Hnew & Hall).
      destruct (history_tx_cases tx acc acc' Hstep) as [-> | (tr & Htr & ->)].
      * now exists new.
      * exists (tr :: new). rewrite Hnew, <- app_assoc. split; [easy |].
        now constructor.
    + exists []. now rewrite app_nil_r.
Qed.

(** X7: when the reply to the history request is a JSON object without the
    ["txs"] key, [get_transactions_from_btc_address] raises nothing and
    returns the list as it was; the object is unchanged. *)
Theorem X7_history_without_txs_keeps_the_list :
  forall (self : t) (net : network) (r : response)
         (items : list (string * pyval)),
    net (RawAddr (watch_address self) 500) = Some r ->
    response_ok r = true ->
    body r = Some (PDict items) ->
    dict_get "txs" items = None ->
    get_transactions_from_btc_address self net
    = (Ok (transaction_list self), self).
Proof.
  intros self net r items Hnet Hok Hbody Hnone.
  unfold get_transactions_from_btc_address, requests_get, response_json.
  cbv zeta. rewrite Hnet, Hok, Hbody. simpl. now rewrite Hnone.
Qed.

Lemma X7_history_without_txs_keeps_the_list_witness :
  let page := feed_of [tx_of [input_of (PStr "W") (PInt 9)]
                             [output_of (PStr "Z") (PInt 7)]] in
  let after_success :=
    snd (get_transactions_from_btc_address (init "W")
           (always (Response 200 (Some page)))) in
  get_transactions_from_btc_address after_success
    (always (Response 200 (Some (PDict [("error", PStr "busy")]))))
  = (Ok [(PStr "W", PStr "Z", PInt 7)], after_success).
Proof.
  intros page after_success.
  apply (X7_history_without_txs_keeps_the_list after_success
           (always (Response 200 (Some (PDict [("error", PStr "busy")]))))
           (Response 200 (Some (PDict [("error", PStr "busy")])))
           [("error", PStr "busy")] eq_refl eq_refl eq_refl eq_refl).
Defined.

(** X8: whatever the network answers and however the call ends, by a
    return or by an exception, [get_transactions_from_btc_address] either
    empties the list, which it does exactly on a reply with a status 4xx or
    5xx, or leaves the former list in place as a prefix and appends
    complete transfers only. *)
Theorem X8_history_resets_or_appends :
  forall (self : t) (net : network),
    (exists r,
        net (RawAddr (watch_address self) 500) = Some r /\
        response_ok r = false /\
        transaction_list (snd (get_transactions_from_btc_address self net))
        = []) \/
    ((forall r, net (RawAddr (watch_address self) 500) = Some r ->
                response_ok r = true) /\
     exists new,
       transaction_list (snd (get_transactions_from_btc_address self net))
       = transaction_list self ++ new /\
       Forall complete_transfer new).
Proof.
  intros self net.
  assert (Hsame : exists new,
             transaction_list self = transaction_list self ++ new /\
             Forall complete_transfer new).
  { exists []. now rewrite app_nil_r. }
  unfold get_transactions_from_btc_address, requests_get. cbv zeta.
  destruct (net (RawAddr (watch_address self) 500)) as [r |] eqn:Hnet.
  - destruct (response_ok r) eqn:Hok.
    + right. split; [intros r' [= <-]; exact Hok |].
      destruct (response_json r) as [data | e]; [| exact Hsame].
      destruct (contains "txs" data) as [[] | e]; try exact Hsame.
      destruct (txs <- getitem_str data "txs" ;; iter txs) as [txs | e];
        [| exact Hsame].
      destruct (history_loop_grows txs (transaction_list self))
        as (new & Hnew & Hall).
      destruct (history_loop txs (transaction_list self)) as [[u | e] l];
        simpl in *; now exists new.
    + left. exists r. auto.
  - right. split; [discriminate | exact Hsame].
Qed.

(** X9: the call is not idempotent.  On any monitor, a successful reply
    whose transactions are valid or lack an array appends the transfers of
    the valid ones to the list held before, and a second call answered in
    the same way appends them once more. *)
Theorem X9_history_appends_again :
  forall (self : t) (net : network) (r : response) (data : pyval)
         (txs : list pyval) (trs : list transfer),
    net (RawAddr (watch_address self) 500) = Some r ->
    response_ok r = true ->
    body r = Some data ->
    getitem_str data "txs" = Ok (PList txs) ->
    normalized txs trs ->
    get_transactions_from_btc_address self net
    = (Ok (transaction_list self ++ trs),
       with_transaction_list self (transaction_list self ++ trs)) /\
    fst (get_transactions_from_btc_address
           (snd (get_transactions_from_btc_address self net)) net)
    = Ok ((transaction_list self ++ trs) ++ trs).
Proof.
  intros self net r data txs trs Hnet Hok Hbody Htxs Hnorm.
  assert (Hcall : forall self',
             watch_address self' = watch_address self ->
             get_transactions_from_btc_address self' net
             = (Ok (transaction_list self' ++ trs),
                with_transaction_list self' (transaction_list self' ++ trs))).
  { intros self' Hw. rewrite <- Hw in Hnet.
    rewrite (history_on_txs self' net r data txs Hnet Hok Hbody Htxs).
    now rewrite (history_loop_normalized txs trs Hnorm). }
  split; [now apply Hcall |].
  rewrite (Hcall self eq_refl). simpl.
  now rewrite Hcall.
Qed.

Lemma X9_history_appends_again_witness :
  let page := feed_of [tx_of [input_of (PStr "W") (PInt 9)]
                             [output_of (PStr "Z") (PInt 7)];
                       PDict [("hash", PStr "00")]] in
  let net := always (Response 200 (Some page)) in
  fst (get_transactions_from_btc_address
         (snd (get_transactions_from_btc_address (init "W") net)) net)
  = Ok [(PStr "W", PStr "Z", PInt 7); (PStr "W", PStr "Z", PInt 7)].
Proof.
  intros page net.
  assert (Hnorm : normalized
                    [tx_of [input_of (PStr "W") (PInt 9)]
                           [output_of (PStr "Z") (PInt 7)];
                     PDict [("hash", PStr "00")]]
                    [(PStr "W", PStr "Z", PInt 7)]).
  { apply normalized_valid.
    - exists [("inputs", PList [input_of (PStr "W") (PInt 9)]);
              ("out", PList [output_of (PStr "Z") (PInt 7)])],
        (input_of (PStr "W") (PInt 9)), [],
        (output_of (PStr "Z") (PInt 7)), [].
      repeat split.
    - apply normalized_skip; [| apply normalized_nil].
      exists [("hash", PStr "00")]. split; [reflexivity | now left]. }
  apply (proj2 (X9_history_appends_again (init "W") net
                  (Response 200 (Some page)) page _ _
                  eq_refl eq_refl eq_refl eq_refl Hnorm)).
Defined.

(** X10: an exception inside the loop leaves a partly extended list.  When
    the transactions before a transaction whose first input has no readable
    ["prev_out"] are valid or lack an array, the call raises the exception
    of that subscript, and [transaction_list] keeps the transfers appended
    before it; the transactions after it are not read. *)
Theorem X10_history_exception_keeps_the_appended :
  forall (self : t) (net : network) (r : response) (data : pyval)
         (pre post : list pyval) (trs : list transfer)
         (items : list (string * pyval)) (input out : pyval)
         (inputs : list pyval) (e : exn),
    net (RawAddr (watch_address self) 500) = Some r ->
    response_ok r = true ->
    body r = Some data ->
    getitem_str data "txs" = Ok (PList (pre ++ PDict items :: post)) ->
    normalized pre trs ->
    dict_get "inputs" items = Some (PList (input :: inputs)) ->
    dict_get "out" items = Some out ->
    getitem_str input "prev_out" = Raise e ->
    get_transactions_from_btc_address self net
    = (Raise e, with_transaction_list self (transaction_list self ++ trs)).
Proof.
  intros self net r data pre post trs items input out inputs e
         Hnet Hok Hbody Htxs Hnorm Hin Hout Hprev.
  rewrite (history_on_txs self net r data _ Hnet Hok Hbody Htxs).
  rewrite (history_loop_app pre trs Hnorm). simpl.
  unfold history_tx. simpl. rewrite Hin, Hout. simpl.
  now rewrite Hprev.
Qed.

Lemma X10_history_exception_keeps_the_appended_witness :
  let good := tx_of [input_of (PStr "W") (PInt 9)]
                    [output_of (PStr "Z") (PInt 7)] in
  let coinbase := tx_of [PDict [("script", PStr "04")]]
                        [output_of (PStr "M") (PInt 50)] in
  get_transactions_from_btc_address (init "W")
    (always (Response 200 (Some (feed_of [good; coinbase; good]))))
  = (Raise KeyError,
     with_transaction_list (init "W") [(PStr "W", PStr "Z", PInt 7)]).
Proof.
  intros good coinbase.
  apply (X10_history_exception_keeps_the_appended (init "W")
           (always (Response 200 (Some (feed_of [good; coinbase; good]))))
           (Response 200 (Some (feed_of [good; coinbase; good])))
           (feed_of [good; coinbase; good])
           [good] [good] [(PStr "W", PStr "Z", PInt 7)]
           [("inputs", PList [PDict [("script", PStr "04")]]);
            ("out", PList [output_of (PStr "M") (PInt 50)])]
           (PDict [("script", PStr "04")])
           (PList [output_of (PStr "M") (PInt 50)]) [] KeyError
           eq_refl eq_refl eq_refl eq_refl).
  - apply normalized_valid; [| apply normalized_nil].
    exists [("inputs", PList [input_of (PStr "W") (PInt 9)]);
            ("out", PList [output_of (PStr "Z") (PInt 7)])],
      (input_of (PStr "W") (PInt 9)), [],
      (output_of (PStr "Z") (PInt 7)), [].
    repeat split.
  - reflexivity.
  - reflexivity.
  - reflexivity.
Defined.



(** X12: [get_transactions_from_btc_address] never changes the watched
    address or the [matrix] attribute of the monitor, however it ends. *)
Theorem X12_history_keeps_the_other_attributes :
  forall (self : t) (net : network),
    watch_address (snd (get_transactions_from_btc_address self net))
    = watch_address self /\
    matrix (snd (get_transactions_from_btc_address self net))
    = matrix self.
Proof.
  intros self net. unfold get_transactions_from_btc_address. cbv zeta.
  destruct (requests_get net _) as [r | e]; [| now split].
  destruct (response_ok r); [| now split].
  destruct (response_json r) as [data | e]; [| now split].
  destruct (contains "txs" data) as [[] | e]; try now split.
  destruct (txs <- getitem_str data "txs" ;; iter txs) as [txs | e];
    [| now split].
  now destruct (history_loop txs (transaction_list self)) as [[u | e] l].
Qed.

End HistoryFurther.

(** ** The block scanner *)

Lemma range_empty (a b : Z) : b <= a -> range a b = [].
Proof.
  intros H. unfold range. replace (Z.to_nat (b - a)) with 0%nat by lia.
  reflexivity.
Qed.

Lemma range_cons (a b : Z) : a < b -> range a b = a :: range (a + 1) b.
Proof.
  intros H. unfold range.
  replace (Z.to_nat (b - a)) with (S (Z.to_nat (b - (a + 1)))) by lia.
  simpl. f_equal; [lia |].
  rewrite <- seq_shift, map_map. apply map_ext. intros i. lia.
Qed.

Lemma range_split (a k b : Z) :
  a <= k <= b -> range a b = range a k ++ range k b.
Proof.
  intros H. remember (Z.to_nat (k - a)) as n eqn:Hn.
  revert a H Hn. induction n as [| n IH]; intros a H Hn.
  - assert (k = a) as -> by lia. now rewrite (range_empty a a) by lia.
  - rewrite (range_cons a b), (range_cons a k) by lia.
    simpl. f_equal. apply IH; lia.
Qed.

Lemma range_In (a b n : Z) : In n (range a b) <-> a <= n < b.
Proof.
  unfold range. rewrite in_map_iff. split.
  - intros (i & <- & Hi). apply in_seq in Hi. lia.
  - intros H. exists (Z.to_nat (n - a)). split; [lia |].
    apply in_seq. lia.
Qed.

Section ScannerFurther.
Import BtcBlockMonitoring.

Lemma with_matrix_same (self : t) : with_matrix self (matrix self) = self.
Proof. now destruct self. Qed.

(** X13: on an empty range, [end_block] below [start_block], the scanner
    sends no request: whatever the network would answer, it returns the
    matrix as it was and the object is unchanged. *)
Theorem X13_scan_of_an_empty_range :
  forall (self : t) (net : network),
    end_block self < start_block self ->
    get_mixed_btc_transactions_from_btc_blocks self net
    = (Ok (matrix self), self).
Proof.
  intros self net H. unfold get_mixed_btc_transactions_from_btc_blocks.
  rewrite range_empty by lia. simpl. now rewrite with_matrix_same.
Qed.

Lemma X13_scan_of_an_empty_range_witness :
  get_mixed_btc_transactions_from_btc_blocks (init 101 100) unreachable
  = (Ok [], init 101 100).
Proof.
  apply (X13_scan_of_an_empty_range (init 101 100) unreachable).
  simpl. lia.
Defined.

(** X14: the final loop in general.  With the lists collected over the
    range, the call appends the rows of the positional pairing, as many as
    the shorter of the sender and recipient lists; it returns the matrix
    when the recipients are at least as many as the senders, and raises
    [IndexError] after appending when there are fewer. *)
Theorem X14_scan_pairs_by_position :
  forall (self : t) (net : network) (ls : lists),
    blocks_loop net (range (start_block self) (end_block self + 1))
      (Lists [] [] []) = Ok ls ->
    let rows := rows_of (sender_addresses ls) (recipient_addresses ls)
                  (amounts ls) in
    List.length rows
    = Nat.min (List.length (sender_addresses ls))
              (List.length (recipient_addresses ls)) /\
    ((List.length (sender_addresses ls)
      <= List.length (recipient_addresses ls))%nat ->
     get_mixed_btc_transactions_from_btc_blocks self net
     = (Ok (matrix self ++ rows), with_matrix self (matrix self ++ rows))) /\
    ((List.length (recipient_addresses ls)
      < List.length (sender_addresses ls))%nat ->
     get_mixed_btc_transactions_from_btc_blocks self net
     = (Raise IndexError, with_matrix self (matrix self ++ rows))).
Proof.
  intros self net ls Hrun rows. repeat apply conj.
  - apply rows_of_length. exact (blocks_loop_lengths net _ ls Hrun).
  - intros Hle. rewrite (scan_pairing self net ls Hrun).
    apply Nat.leb_le in Hle. now rewrite Hle.
  - intros Hlt. rewrite (scan_pairing self net ls Hrun).
    apply Nat.leb_gt in Hlt. now rewrite Hlt.
Qed.

Lemma X14_scan_pairs_by_position_witness :
  let block :=
    block_of [tx_of [input_of (PStr "X") (PInt 10);
                     input_of (PStr "Y") (PInt 5)]
                    [output_of (PStr "Z") (PInt 9);
                     output_of (PStr "W") (PInt 3);
                     output_of (PStr "U") (PInt 3)]] in
  get_mixed_btc_transactions_from_btc_blocks (init 7 7)
    (always (Response 200 (Some block)))
  = (Ok [[PStr "X"; PStr "Z"; PInt 10]; [PStr "Y"; PStr "W"; PInt 5]],
     with_matrix (init 7 7)
       [[PStr "X"; PStr "Z"; PInt 10]; [PStr "Y"; PStr "W"; PInt 5]]).
Proof.
  intros block.
  apply (proj1 (proj2 (X14_scan_pairs_by_position (init 7 7)
                         (always (Response 200 (Some block)))
                         (Lists [PStr "X"; PStr "Y"]
                                [PStr "Z"; PStr "W"; PStr "U"]
                                [PInt 10; PInt 5])
                         eq_refl))).
  simpl. lia.
Defined.

(** X15: an exception other than [IndexError] comes from the scan of the
    blocks, before the matrix is touched: the object is unchanged and what
    was collected from earlier blocks is lost. *)
Theorem X15_scan_exception_leaves_the_object :
  forall (self : t) (net : network) (e : exn),
    fst (get_mixed_btc_transactions_from_btc_blocks self net) = Raise e ->
    e <> IndexError ->
    snd (get_mixed_btc_transactions_from_btc_blocks self net) = self.
Proof.
  intros self net e Hraise Hne.
  destruct (blocks_loop net (range (start_block self) (end_block self + 1))
              (Lists [] [] [])) as [ls | e'] eqn:Hrun.
  - rewrite (scan_pairing self net ls Hrun) in Hraise.
    destruct (_ <=? _)%nat; simpl in Hraise; congruence.
  - now rewrite (scan_raises self net e' Hrun).
Qed.

Lemma X15_scan_exception_leaves_the_object_witness :
  let mixed :=
    block_of [tx_of [input_of (PStr "X") (PInt 10);
                     input_of (PStr "Y") (PInt 5)]
                    [output_of (PStr "Z") (PInt 14);
                     output_of (PStr "W") (PInt 1)]] in
  let net : network :=
    fun url =>
      match url with
      | RawBlock n => if n =? 100 then Some (Response 200 (Some mixed))
                      else None
      | _ => None
      end in
  snd (get_mixed_btc_transactions_from_btc_blocks (init 100 101) net)
  = init 100 101.
Proof.
  intros mixed net.
  apply (X15_scan_exception_leaves_the_object (init 100 101) net
           ConnectionError eq_refl).
  discriminate.
Defined.

(** X16: however the call ends, the scanner keeps its range, and the
    matrix it held before is a prefix of the matrix it holds after. *)
Theorem X16_scan_keeps_range_and_former_rows :
  forall (self : t) (net : network),
    start_block (snd (get_mixed_btc_transactions_from_btc_blocks self net))
    = start_block self /\
    end_block (snd (get_mixed_btc_transactions_from_btc_blocks self net))
    = end_block self /\
    exists new,
      matrix (snd (get_mixed_btc_transactions_from_btc_blocks self net))
      = matrix self ++ new.
Proof.
  intros self net.
  destruct (blocks_loop net (range (start_block self) (end_block self + 1))
              (Lists [] [] [])) as [ls | e] eqn:Hrun.
  - rewrite (scan_pairing self net ls Hrun).
    destruct (_ <=? _)%nat; simpl; eauto.
  - rewrite (scan_raises self net e Hrun). simpl.
    repeat split. exists []. now rewrite app_nil_r.
Qed.

(** X17: the call is not idempotent.  When it returns, a second call on
    the same object, answered in the same way, returns the first result
    followed once more by the rows the first call added. *)
Theorem X17_scan_appends_again :
  forall (self : t) (net : network) (m : list (list pyval)),
    fst (get_mixed_btc_transactions_from_btc_blocks self net) = Ok m ->
    exists new,
      m = matrix self ++ new /\
      fst (get_mixed_btc_transactions_from_btc_blocks
             (snd (get_mixed_btc_transactions_from_btc_blocks self net)) net)
      = Ok (m ++ new).
Proof.
  intros self net m Hm.
  destruct (blocks_loop net (range (start_block self) (end_block self + 1))
              (Lists [] [] [])) as [ls | e] eqn:Hrun.
  - rewrite (scan_pairing self net ls Hrun) in *.
    destruct (_ <=? _)%nat eqn:Hle; simpl in Hm; [| discriminate].
    injection Hm as <-. eexists. split; [reflexivity |]. simpl.
    rewrite (scan_pairing _ net ls); [| exact Hrun].
    now rewrite Hle.
  - rewrite (scan_raises self net e Hrun) in Hm. discriminate.
Qed.

Lemma X17_scan_appends_again_witness :
  let block :=
    block_of [tx_of [input_of (PStr "X") (PInt 10);
                     input_of (PStr "Y") (PInt 5)]
                    [output_of (PStr "Z") (PInt 14);
                     output_of (PStr "W") (PInt 1)]] in
  let net := always (Response 200 (Some block)) in
  exists new,
    [[PStr "X"; PStr "Z"; PInt 10]; [PStr "Y"; PStr "W"; PInt 5]]
    = [] ++ new /\
    fst (get_mixed_btc_transactions_from_btc_blocks
           (snd (get_mixed_btc_transactions_from_btc_blocks (init 7 7) net))
           net)
    = Ok ([[PStr "X"; PStr "Z"; PInt 10]; [PStr "Y"; PStr "W"; PInt 5]]
          ++ new).
Proof.
  intros block net.
  apply (X17_scan_appends_again (init 7 7) net
           [[PStr "X"; PStr "Z"; PInt 10]; [PStr "Y"; PStr "W"; PInt 5]]
           eq_refl).
Defined.

Lemma is_coinjoin_few_inputs (tx : pyval) (inputs : list pyval) :
  getitem_str tx "inputs" = Ok (PList inputs) ->
  (List.length inputs <= 1)%nat ->
  is_coinjoin tx = Ok false.
Proof.
  intros Hin Hle. unfold is_coinjoin. rewrite Hin. simpl.
  destruct (Z.ltb_spec 1 (Z.of_nat (List.length inputs))); [lia |].
  reflexivity.
Qed.

Lemma txs_loop_quiet (pre rest : list pyval) (acc : lists) :
  Forall (fun tx => is_coinjoin tx = Ok false) pre ->
  txs_loop (pre ++ rest) acc = txs_loop rest acc.
Proof.
  induction 1 as [| tx pre Htx _ IH]; [reflexivity |].
  simpl. unfold scan_tx. rewrite Htx. simpl. exact IH.
Qed.

Lemma blocks_loop_quiet (net : network) (quiet rest : list Z) (acc : lists) :
  Forall (fun n => exists txs,
              block_transactions net n = Ok txs /\
              Forall (fun tx => is_coinjoin tx = Ok false) txs) quiet ->
  blocks_loop net (quiet ++ rest) acc = blocks_loop net rest acc.
Proof.
  induction 1 as [| n quiet (txs & Htxs & Hall) _ IH]; [reflexivity |].
  simpl. rewrite scan_block_transactions, Htxs. simpl.
  rewrite <- (app_nil_r txs), (txs_loop_quiet txs [] acc Hall). simpl.
  exact IH.
Qed.

(** X18: a transaction with at most one input is no mixing candidate and
    its ["out"] value is not even read.  When every block of the range is
    answered with a status 4xx or 5xx or holds no mixing candidate, the
    call returns the matrix as it was. *)
Theorem X18_scan_without_candidates :
  (forall tx inputs,
      getitem_str tx "inputs" = Ok (PList inputs) ->
      (List.length inputs <= 1)%nat ->
      is_coinjoin tx = Ok false) /\
  (forall (self : t) (net : network),
      (forall n, start_block self <= n <= end_block self ->
                 exists txs,
                   block_transactions net n = Ok txs /\
                   Forall (fun tx => is_coinjoin tx = Ok false) txs) ->
      get_mixed_btc_transactions_from_btc_blocks self net
      = (Ok (matrix self), self)).
Proof.
  split; [exact is_coinjoin_few_inputs |].
  intros self net Hquiet.
  unfold get_mixed_btc_transactions_from_btc_blocks.
  rewrite <- (app_nil_r (range _ _)), blocks_loop_quiet.
  - simpl. now rewrite with_matrix_same.
  - apply Forall_forall. intros n Hn. apply range_In in Hn.
    apply Hquiet. lia.
Qed.

Lemma X18_scan_without_candidates_witness :
  let coinbase := PDict [("inputs", PList [PDict [("script", PStr "04")]])] in
  let net : network :=
    fun url =>
      match url with
      | RawBlock n => if n =? 100 then Some (Response 404 None)
                      else Some (Response 200 (Some (block_of [coinbase])))
      | _ => None
      end in
  get_mixed_btc_transactions_from_btc_blocks (init 100 101) net
  = (Ok [], init 100 101).
Proof.
  intros coinbase net.
  apply (proj2 X18_scan_without_candidates (init 100 101) net).
  intros n Hn. simpl in Hn.
  assert (n = 100 \/ n = 101) as [-> | ->] by lia.
  - exists []. split; [reflexivity | constructor].
  - exists [coinbase]. split; [reflexivity |].
    constructor; [| constructor].
    apply (proj1 X18_scan_without_candidates coinbase
             [PDict [("script", PStr "04")]] eq_refl).
    simpl. lia.
Defined.





End ScannerFurther.

(** ** Faults that are passed on to the caller *)

Section PassedOn.

Lemma scan_block_unreachable (net : network) (k : Z)
    (acc : BtcBlockMonitoring.lists) :
  net (RawBlock k) = None ->
  BtcBlockMonitoring.scan_block net k acc = Raise ConnectionError.
Proof.
  intros H. unfold BtcBlockMonitoring.scan_block, requests_get.
  now rewrite H.
Qed.

Lemma scan_block_bad_json (net : network) (k : Z) (r : response)
    (acc : BtcBlockMonitoring.lists) :
  net (RawBlock k) = Some r ->
  response_ok r = true ->
  body r = None ->
  BtcBlockMonitoring.scan_block net k acc = Raise JSONDecodeError.
Proof.
  intros H Hok Hbody.
  unfold BtcBlockMonitoring.scan_block, requests_get, response_json.
  rewrite H. simpl. now rewrite Hok, Hbody.
Qed.

(** X20: neither [get_transactions_from_btc_address] nor
    [get_mixed_btc_transactions_from_btc_blocks] handles a transport
    failure or a body that is not JSON.  The history call raises
    [ConnectionError], respectively [JSONDecodeError], and the monitor is
    unchanged.  The scan raises the same at the first block of the range
    that is unreachable or not JSON, when the blocks before it hold no
    mixing candidate, and the scanner is unchanged. *)
Theorem X20_transport_and_parse_faults_are_raised :
  (forall (self : BtcAddressMonitoring.t) (net : network),
      (net (RawAddr (BtcAddressMonitoring.watch_address self) 500) = None ->
       BtcAddressMonitoring.get_transactions_from_btc_address self net
       = (Raise ConnectionError, self)) /\
      (forall r,
          net (RawAddr (BtcAddressMonitoring.watch_address self) 500)
          = Some r ->
          response_ok r = true ->
          body r = None ->
          BtcAddressMonitoring.get_transactions_from_btc_address self net
          = (Raise JSONDecodeError, self))) /\
  (forall (self : BtcBlockMonitoring.t) (net : network) (k : Z),
      BtcBlockMonitoring.start_block self <= k
      <= BtcBlockMonitoring.end_block self ->
      (forall n, BtcBlockMonitoring.start_block self <= n < k ->
                 exists txs,
                   block_transactions net n = Ok txs /\
                   Forall (fun tx =>
                             BtcBlockMonitoring.is_coinjoin tx = Ok false)
                          txs) ->
      (net (RawBlock k) = None ->
       BtcBlockMonitoring.get_mixed_btc_transactions_from_btc_blocks self net
       = (Raise ConnectionError, self)) /\
      (forall r,
          net (RawBlock k) = Some r ->
          response_ok r = true ->
          body r = None ->
          BtcBlockMonitoring.get_mixed_btc_transactions_from_btc_blocks
            self net
          = (Raise JSONDecodeError, self))).
Proof.
  split.
  - intros self net. split.
    + intros Hnet.
      unfold BtcAddressMonitoring.get_transactions_from_btc_address,
        requests_get.
      cbv zeta. now rewrite Hnet.
    + intros r Hnet Hok Hbody.
      unfold BtcAddressMonitoring.get_transactions_from_btc_address,
        requests_get, response_json.
      cbv zeta. now rewrite Hnet, Hok, Hbody.
  - intros self net k Hk Hquiet.
    assert (Hsplit : forall e,
               (forall acc, BtcBlockMonitoring.scan_block net k acc
                            = Raise e) ->
               BtcBlockMonitoring.get_mixed_btc_transactions_from_btc_blocks
                 self net = (Raise e, self)).
    { intros e Hblock. apply scan_raises.
      rewrite (range_split (BtcBlockMonitoring.start_block self) k
                 (BtcBlockMonitoring.end_block self + 1)) by lia.
      rewrite blocks_loop_quiet.
      - rewrite (range_cons k) by lia. simpl. now rewrite Hblock.
      - apply Forall_forall. intros n Hn. apply range_In in Hn.
        now apply Hquiet. }
    split.
    + intros Hnet. apply Hsplit. intros acc.
      now apply scan_block_unreachable.
    + intros r Hnet Hok Hbody. apply Hsplit. intros acc.
      now apply scan_block_bad_json with r.
Qed.

Lemma X20_transport_and_parse_faults_are_raised_witness :
  let net : network :=
    fun url =>
      match url with
      | RawBlock n => if n =? 100 then Some (Response 200 (Some (block_of [])))
                      else Some (Response 200 None)
      | _ => None
      end in
  BtcAddressMonitoring.get_transactions_from_btc_address
    (BtcAddressMonitoring.init "W") net
  = (Raise ConnectionError, BtcAddressMonitoring.init "W") /\
  BtcBlockMonitoring.get_mixed_btc_transactions_from_btc_blocks
    (BtcBlockMonitoring.init 100 102) net
  = (Raise JSONDecodeError, BtcBlockMonitoring.init 100 102).
Proof.
  intros net. split.
  - apply (proj1 (proj1 X20_transport_and_parse_faults_are_raised
                    (BtcAddressMonitoring.init "W") net) eq_refl).
  - assert (Hk : BtcBlockMonitoring.start_block
                   (BtcBlockMonitoring.init 100 102) <= 101
                 <= BtcBlockMonitoring.end_block
                      (BtcBlockMonitoring.init 100 102))
      by (simpl; lia).
    assert (Hquiet : forall n,
               BtcBlockMonitoring.start_block
                 (BtcBlockMonitoring.init 100 102) <= n < 101 ->
               exists txs,
                 block_transactions net n = Ok txs /\
                 Forall (fun tx =>
                           BtcBlockMonitoring.is_coinjoin tx = Ok false) txs).
    { simpl. intros n Hn. assert (n = 100) as -> by lia.
      exists []. split; [reflexivity | constructor]. }
    apply (proj2 (proj2 X20_transport_and_parse_faults_are_raised
                    (BtcBlockMonitoring.init 100 102) net 101 Hk Hquiet)
             (Response 200 None) eq_refl eq_refl eq_refl).
Defined.

End PassedOn.
